(** * backend/api/serializers.py: the OTP lifecycle of the registration flow

    A shallow embedding of the serializers that carry the e-mail one-time
    password (OTP) logic -- [VerifyOTPSerializer.validate],
    [RegisterSerializer.validate], [RegisterSerializer.create] -- and of
    [UpcomingSessionSerializer.validate_start_time], with the properties
    the specification states about them.

    Conventions.
    - The [EmailOTP] table is a finite map from primary keys to rows; a
      Python model instance is a primary key together with the field
      values read from its row.
    - Instants are integers counting microseconds (the resolution of
      Python's [datetime]); a [timedelta] is a number of microseconds.
    - A Python [str] is a Rocq [string] whose characters stand for the
      code points below 256; strings with other characters are outside
      the model. Where Python or the database treats letters beyond
      ASCII in a way of its own, the properties are stated for strings
      of ASCII characters ([PyText.is_ascii]).
    - [raise serializers.ValidationError(...)] is the [Raise] result. *)

From stdpp Require Import gmap strings list fin_maps relations pretty.
From Stdlib Require Import ZArith Ascii String Lia.

Local Open Scope string_scope.
Local Open Scope Z_scope.

(** ** Python string methods *)

Module Py.

(** [str.isspace] of one character, for the code points below 256:
    TAB..CR, FS..US, SPACE, NEL and NBSP. *)
Definition isspace (c : ascii) : bool :=
  let n := N_of_ascii c in
  ((9 <=? n) && (n <=? 13) || (28 <=? n) && (n <=? 32)
   || (n =? 133) || (n =? 160))%N.

(** [str.lower] of one character, for the code points below 256:
    A..Z and the Latin-1 capitals (all of 192..222 except the
    multiplication sign 215) move 32 places up. *)
Definition lower_char (c : ascii) : ascii :=
  let n := N_of_ascii c in
  if ((65 <=? n) && (n <=? 90)
      || (192 <=? n) && (n <=? 222) && negb (n =? 215))%N
  then ascii_of_N (n + 32) else c.

(** [s.lower()] *)
Fixpoint lower (s : string) : string :=
  match s with
  | EmptyString => EmptyString
  | String c s' => String (lower_char c) (lower s')
  end.

(** [s.lstrip()] *)
Fixpoint lstrip (s : string) : string :=
  match s with
  | EmptyString => EmptyString
  | String c s' => if isspace c then lstrip s' else s
  end.

(** [s.rstrip()] *)
Fixpoint rstrip (s : string) : string :=
  match s with
  | EmptyString => EmptyString
  | String c s' =>
      match rstrip s' with
      | EmptyString => if isspace c then EmptyString else String c EmptyString
      | t => String c t
      end
  end.

(** [s.strip()] *)
Definition strip (s : string) : string := rstrip (lstrip s).

(** The truth value of a string: only the empty string is false. *)
Definition truthy (s : string) : bool :=
  match s with EmptyString => false | _ => true end.

End Py.

(** ** More Python string methods *)

Module PyText.

(** [str.isalnum] of one character, for the code points below 256: the
    digits, the letters of ASCII and of Latin-1, the ordinal indicators,
    the micro sign, the superscript digits and the vulgar fractions. *)
Definition isalnum_char (c : ascii) : bool :=
  let n := N_of_ascii c in
  ((48 <=? n) && (n <=? 57) || (65 <=? n) && (n <=? 90)
   || (97 <=? n) && (n <=? 122) || (n =? 170)
   || (178 <=? n) && (n <=? 179) || (n =? 181)
   || (185 <=? n) && (n <=? 186) || (188 <=? n) && (n <=? 190)
   || (192 <=? n) && (n <=? 214) || (216 <=? n) && (n <=? 246)
   || (248 <=? n))%N.

Fixpoint all_alnum (s : string) : bool :=
  match s with
  | EmptyString => true
  | String c s' => isalnum_char c && all_alnum s'
  end.

(** [s.isalnum()]: every character is alphanumeric and there is one. *)
Definition isalnum (s : string) : bool := Py.truthy s && all_alnum s.

(** [c in s], for a string [c] of one character. *)
Fixpoint contains (c : ascii) (s : string) : bool :=
  match s with
  | EmptyString => false
  | String a s' => Ascii.eqb a c || contains c s'
  end.

(** [s.isascii()]: every character is below 128. *)
Fixpoint is_ascii (s : string) : bool :=
  match s with
  | EmptyString => true
  | String c s' => (N_of_ascii c <? 128)%N && is_ascii s'
  end.

(** [f"{n:02d}"]: the decimal numeral of [n], with a zero in front when
    it has fewer than two characters, the sign included. *)
Definition format_02d (n : Z) : string :=
  let s := pretty n in
  if (String.length s <? 2)%nat then "0" +:+ s else s.

(** A string that is empty or starts with a character that is no space. *)
Definition starts_clean (s : string) : Prop :=
  match s with
  | EmptyString => True
  | String c _ => Py.isspace c = false
  end.

End PyText.

(** ** Validation results *)

(** The two shapes of [serializers.ValidationError] the module raises:
    a dictionary with one field and its message, or a bare message. *)
Inductive ValidationError : Type :=
| FieldError (field message : string)
| DetailError (message : string).

Inductive result (A : Type) : Type :=
| Ok (a : A)
| Raise (e : ValidationError).
Arguments Ok {A} a.
Arguments Raise {A} e.

Definition is_ok {A} (r : result A) : bool :=
  match r with Ok _ => true | Raise _ => false end.

(** ** The EmailOTP model *)

(** Modelled from the spec: the [EmailOTP] model class of models.py is not
    among the sources; its fields are those the serializers read and write
    and the specification's data model lists. *)
Inductive Purpose : Type :=
| PURPOSE_REGISTRATION
| PURPOSE_OTHER (tag : string).

Definition Purpose_eqb (p q : Purpose) : bool :=
  match p, q with
  | PURPOSE_REGISTRATION, PURPOSE_REGISTRATION => true
  | PURPOSE_OTHER a, PURPOSE_OTHER b => String.eqb a b
  | _, _ => false
  end.

Record EmailOTP : Type := mkEmailOTP {
  email : string;
  code : string;
  token : string;
  purpose : Purpose;
  created_at : Z;
  attempts : Z;
  is_verified : bool
}.

(** Modelled from the spec: the derived property [EmailOTP.is_expired] of
    models.py, "true when current time exceeds created_at plus a fixed
    validity window"; the window [ttl] is configuration. *)
Definition is_expired (ttl now : Z) (r : EmailOTP) : bool :=
  created_at r + ttl <? now.

Definition set_attempts (n : Z) (r : EmailOTP) : EmailOTP :=
  {| email := email r; code := code r; token := token r;
     purpose := purpose r; created_at := created_at r;
     attempts := n; is_verified := is_verified r |}.

Definition set_is_verified (b : bool) (r : EmailOTP) : EmailOTP :=
  {| email := email r; code := code r; token := token r;
     purpose := purpose r; created_at := created_at r;
     attempts := attempts r; is_verified := b |}.

(** The table, and a model instance: the primary key and the field values. *)
Abbreviation Table := (gmap positive EmailOTP).
Definition OtpInstance : Type := positive * EmailOTP.

(** ** The ORM calls the serializers make *)

Module Orm.

(** [field__iexact=value]: equality up to letter case, the letters folded
    as Python's [lower] folds them. The match is made by the database,
    which is not part of the sources: SQLite, the default of the
    framework, folds the letters A..Z only ([iexact_ascii] below). The two
    agree on every value of ASCII characters and on every field equal to
    the value. *)
Definition iexact (field value : string) : bool :=
  String.eqb (Py.lower field) (Py.lower value).

(** [field__iexact=value] where only the letters A..Z are folded. *)
Definition fold_ascii_char (c : ascii) : ascii :=
  let n := N_of_ascii c in
  if ((65 <=? n) && (n <=? 90))%N then ascii_of_N (n + 32) else c.

Fixpoint fold_ascii (s : string) : string :=
  match s with
  | EmptyString => EmptyString
  | String c s' => String (fold_ascii_char c) (fold_ascii s')
  end.

Definition iexact_ascii (field value : string) : bool :=
  String.eqb (fold_ascii field) (fold_ascii value).

(** [.order_by("-created_at").first()] over the rows a filter kept: a row
    with the greatest [created_at], [None] when there is none. Which of
    several rows with the same greatest [created_at] comes first is the
    database's choice; here it is the first of them in the list. *)
Fixpoint first_desc (rows : list OtpInstance) : option OtpInstance :=
  match rows with
  | [] => None
  | r :: rest =>
      match first_desc rest with
      | None => Some r
      | Some b => if created_at r.2 <? created_at b.2 then Some b else Some r
      end
  end.

(** [EmailOTP.objects.filter(...).order_by("-created_at").first()] *)
Definition filter_latest (keep : EmailOTP -> bool) (tbl : Table)
  : option OtpInstance :=
  first_desc (List.filter (fun r => keep r.2) (map_to_list tbl)).

(** [instance.save(update_fields=["attempts"])]: in the row with the
    instance's key, the one column takes the instance's value. *)
Definition save_attempts (inst : OtpInstance) (tbl : Table) : Table :=
  alter (set_attempts (attempts inst.2)) inst.1 tbl.

(** The same for the column [is_verified]. *)
Definition save_is_verified (inst : OtpInstance) (tbl : Table) : Table :=
  alter (set_is_verified (is_verified inst.2)) inst.1 tbl.

(** [instance.delete()] *)
Definition delete (inst : OtpInstance) (tbl : Table) : Table :=
  base.delete inst.1 tbl.

(** [EmailOTP.objects.create(...)]: a new row, under the key [pk] the
    database gives it. *)
Definition create (pk : positive) (row : EmailOTP) (tbl : Table) : Table :=
  <[pk := row]> tbl.

End Orm.

(** The stored addresses the query matches for a queried address
    whichever of the two ways the letters are folded: the address itself
    and, for a queried address of ASCII characters, its spellings in
    another letter case. *)
Definition same_address (stored queried : string) : Prop :=
  stored = queried \/
  PyText.is_ascii queried = true /\ Py.lower stored = Py.lower queried.

(** ** VerifyOTPSerializer *)

Module VerifyOTPSerializer.

Record Attrs : Type := mkAttrs {
  attrs_email : string;
  attrs_code : string
}.

(** [attrs] after [attrs["otp"] = otp]. *)
Record Validated : Type := mkValidated {
  validated_attrs : Attrs;
  otp : OtpInstance
}.

Definition NotFound : ValidationError :=
  FieldError "email" "No OTP request found for this email.".
Definition Expired : ValidationError :=
  FieldError "code" "OTP has expired. Please request a new one.".
Definition AttemptsExceeded : ValidationError :=
  FieldError "code" "Too many attempts. Please request a new OTP.".
Definition CodeMismatch : ValidationError :=
  FieldError "code" "Incorrect OTP code.".

(** The filter of the query: [email__iexact=email],
    [purpose=EmailOTP.PURPOSE_REGISTRATION]. *)
Definition keep (email_ : string) (r : EmailOTP) : bool :=
  Orm.iexact (email r) email_ && Purpose_eqb (purpose r) PURPOSE_REGISTRATION.

(** [qs.first()] *)
Definition lookup (email_ : string) (tbl : Table) : option OtpInstance :=
  Orm.filter_latest (keep email_) tbl.

(** The locals [email] and [code] of [validate]. *)
Definition email_of (attrs : Attrs) : string :=
  Py.lower (Py.strip (attrs_email attrs)).
Definition code_of (attrs : Attrs) : string :=
  Py.strip (attrs_code attrs).

(** [validate(self, attrs)]: the result and the table afterwards. *)
Definition validate (ttl now : Z) (attrs : Attrs) (tbl : Table)
  : result Validated * Table :=
  let email_ := email_of attrs in
  let code_ := code_of attrs in
  match lookup email_ tbl with
  | None => (Raise NotFound, tbl)
  | Some o =>
      if is_expired ttl now o.2 then (Raise Expired, tbl)
      else if 5 <=? attempts o.2 then (Raise AttemptsExceeded, tbl)
      else if negb (String.eqb (code o.2) code_) then
        let o' := (o.1, set_attempts (attempts o.2 + 1) o.2) in
        (Raise CodeMismatch, Orm.save_attempts o' tbl)
      else (Ok (mkValidated attrs o), tbl)
  end.

(** [validate] accepts: it returns instead of raising. *)
Definition accepted (ttl now : Z) (attrs : Attrs) (tbl : Table) : bool :=
  is_ok (validate ttl now attrs tbl).1.

(** Calls made one after the other, each at its own instant. *)
Fixpoint validate_all (ttl : Z) (calls : list (Z * Attrs)) (tbl : Table)
  : list (result Validated) * Table :=
  match calls with
  | [] => ([], tbl)
  | c :: rest =>
      let '(res, tbl') := validate ttl c.1 c.2 tbl in
      let '(ress, tbl'') := validate_all ttl rest tbl' in
      (res :: ress, tbl'')
  end.

(** [code = serializers.CharField(min_length=6, max_length=6)]: the
    framework's field trims surrounding whitespace (its default), refuses
    a blank value, applies the two length bounds and refuses a null
    character. Where two of the checks fail, the first message stands
    for the list the framework reports. *)
Definition code_field (data : string) : result string :=
  let value := Py.strip data in
  if negb (Py.truthy value) then
    Raise (FieldError "code" "This field may not be blank.")
  else if (String.length value <? 6)%nat then
    Raise (FieldError "code" "Ensure this field has at least 6 characters.")
  else if (6 <? String.length value)%nat then
    Raise (FieldError "code"
             "Ensure this field has no more than 6 characters.")
  else if PyText.contains "000"%char value then
    Raise (FieldError "code" "Null characters are not allowed.")
  else Ok value.

(** The serializer run on submitted data: the declared [code] field,
    then [validate]. The [email] field is not modelled: it trims the
    address, which [validate] does again, and checks its format, which
    can only refuse a request. A refusal here is a refusal of the
    serializer; an acceptance here is one for an address the [email]
    field lets through. *)
Definition run_validation (ttl now : Z) (data : Attrs) (tbl : Table)
  : result Validated * Table :=
  match code_field (attrs_code data) with
  | Raise e => (Raise e, tbl)
  | Ok value => validate ttl now (mkAttrs (attrs_email data) value) tbl
  end.

End VerifyOTPSerializer.

(** Modelled from the spec: the last step of the VerifyOTP operation, taken
    by the view that runs the serializer (views.py, not among the sources):
    "On all four preconditions passing: mark is_verified = true, return
    success with a reference to the record". *)
Definition VerifyOTP (ttl now : Z) (attrs : VerifyOTPSerializer.Attrs)
    (tbl : Table) : result OtpInstance * Table :=
  match VerifyOTPSerializer.validate ttl now attrs tbl with
  | (Ok v, tbl') =>
      let o := VerifyOTPSerializer.otp v in
      let o' := (o.1, set_is_verified true o.2) in
      (Ok o', Orm.save_is_verified o' tbl')
  | (Raise e, tbl') => (Raise e, tbl')
  end.

(** ** The user directory *)

(** A row of the framework's [User] table, with the two columns the
    serializers query. *)
Record UserRow : Type := mkUserRow {
  user_username : string;
  user_email : string
}.

Module UserObjects.

(** [User.objects.filter(username=value).exists()] *)
Definition username_exists (value : string) (users : list UserRow) : bool :=
  existsb (fun u => String.eqb (user_username u) value) users.

(** [User.objects.filter(email__iexact=value).exists()] *)
Definition email_exists (value : string) (users : list UserRow) : bool :=
  existsb (fun u => Orm.iexact (user_email u) value) users.

(** The outcomes of [objects.get(...)]: the one row that matches, or one
    of its two exceptions. *)
Inductive GetResult : Type :=
| Found (u : UserRow)
| DoesNotExist
| MultipleObjectsReturned.

(** [user_model.objects.get(email__iexact=value)] *)
Definition get_by_email (value : string) (users : list UserRow) : GetResult :=
  match List.filter (fun u => Orm.iexact (user_email u) value) users with
  | [] => DoesNotExist
  | [u] => Found u
  | _ => MultipleObjectsReturned
  end.

End UserObjects.


(** Every stored username is in lower case. *)
Definition lowercase_names (users : list UserRow) : Prop :=
  Forall (fun u => Py.lower (user_username u) = user_username u) users.

(** ** RegisterSerializer *)

(** A value of a profile attribute: [None], a string or an integer. *)
Inductive PyValue : Type :=
| PyNone
| PyStr (s : string)
| PyInt (n : Z).

Module RegisterSerializer.

(** The validated fields; a field that is not required is [None] when
    the request leaves it out (for [age], also when it is null). *)
Record Attrs : Type := mkAttrs {
  username : string;
  attrs_email : option string;
  password : string;
  full_name : option string;
  nickname : option string;
  phone : option string;
  age : option Z;
  gender : option string;
  otp_token : string
}.

Definition EmailRequired : ValidationError :=
  FieldError "email" "Email is required for registration.".
Definition InvalidOrExpiredToken : ValidationError :=
  FieldError "otp_token" "The provided OTP token is invalid or expired.".

(** The filter of the query: [token=token],
    [purpose=EmailOTP.PURPOSE_REGISTRATION], [email__iexact=email]. *)
Definition keep (token_ email_ : string) (r : EmailOTP) : bool :=
  String.eqb (token r) token_
  && Purpose_eqb (purpose r) PURPOSE_REGISTRATION
  && Orm.iexact (email r) email_.

Definition lookup (token_ email_ : string) (tbl : Table)
  : option OtpInstance :=
  Orm.filter_latest (keep token_ email_) tbl.


(** [validate(self, attrs)], after the inherited [validate], which returns
    its argument: the attributes, with the instance left in
    [self.context["otp_instance"]]. The table is only read. *)
Definition validate (ttl now : Z) (attrs : Attrs) (tbl : Table)
  : result (Attrs * OtpInstance) :=
  match attrs_email attrs with
  | None => Raise EmailRequired
  | Some email_ =>
      if negb (Py.truthy email_) then Raise EmailRequired
      else
        match lookup (otp_token attrs) email_ tbl with
        | None => Raise InvalidOrExpiredToken
        | Some o =>
            if negb (is_verified o.2) || is_expired ttl now o.2
            then Raise InvalidOrExpiredToken
            else Ok (attrs, o)
        end
  end.

(** [validated_data.pop(key, "")] as a profile value. *)
Definition pop_str (v : option string) : PyValue :=
  match v with Some s => PyStr s | None => PyStr "" end.

Definition profile_fields (vd : Attrs) : list (string * PyValue) :=
  [ ("full_name", pop_str (full_name vd));
    ("nickname", pop_str (nickname vd));
    ("phone", pop_str (phone vd));
    ("age", match age vd with Some n => PyInt n | None => PyNone end);
    ("gender", pop_str (gender vd)) ].

(** [value not in (None, "", [])] *)
Definition is_set (v : PyValue) : bool :=
  match v with
  | PyNone => false
  | PyStr s => Py.truthy s
  | PyInt _ => true
  end.

Definition normalized_email (vd : Attrs) : option string :=
  match attrs_email vd with
  | Some e => if Py.truthy e then Some (Py.lower (Py.strip e)) else Some e
  | None => None
  end.

Section Create.

(** The user directory and the profile table belong to the framework
    and to models.py: their operations are taken as given. An operation
    that raises (an integrity or database error) gives [None]; the
    exception ends [create] there. *)
Context {Accounts User Profile : Type}.
Variable create_user :
  string -> option string -> string -> Accounts -> option (User * Accounts).
Variable get_or_create : User -> Accounts -> option (Profile * Accounts).
Variable setattr : Profile -> string -> PyValue -> Profile.
Variable profile_save : Profile -> Accounts -> option Accounts.

(** The whole store: the OTP table and the account tables. *)
Record Store : Type := mkStore {
  otps : Table;
  accounts : Accounts
}.

(** [create(self, validated_data)], with
    [otp_instance = self.context["otp_instance"]]: the user returned, or
    [None] when a call raised, and the store afterwards. *)
Definition create (vd : Attrs) (otp_instance : OtpInstance) (st : Store)
  : option User * Store :=
  match create_user (username vd) (normalized_email vd) (password vd)
          (accounts st) with
  | None => (None, st)
  | Some (user, acc1) =>
      match get_or_create user acc1 with
      | None => (None, mkStore (otps st) acc1)
      | Some (profile, acc2) =>
          let profile' :=
            fold_left
              (fun p av => if is_set av.2 then setattr p av.1 av.2 else p)
              (profile_fields vd) profile in
          match profile_save profile' acc2 with
          | None => (None, mkStore (otps st) acc2)
          | Some acc3 =>
              (Some user, mkStore (Orm.delete otp_instance (otps st)) acc3)
          end
      end
  end.

End Create.

(** [validate_username(self, value)], the string methods being those of
    [Py] and [PyText]: Python's on the code points below 256. *)
Definition validate_username (value : string) (users : list UserRow)
  : result string :=
  let normalized := Py.strip value in
  if negb (Py.truthy normalized) then
    Raise (DetailError "Username cannot be blank")
  else if negb (PyText.isalnum normalized) then
    Raise (DetailError "Username must be letters and numbers only")
  else
    let normalized := Py.lower normalized in
    if UserObjects.username_exists normalized users then
      Raise (DetailError "Username already exists")
    else Ok normalized.

(** [validate_email(self, value)] *)
Definition validate_email (value : string) (users : list UserRow)
  : result string :=
  let normalized := Py.lower (Py.strip value) in
  if UserObjects.email_exists normalized users then
    Raise (DetailError "Email already in use")
  else Ok normalized.

(** The assignments the loop of [create] makes to the profile, in order:
    one for each string field that is present and not empty, and one for
    [age] when it is present. *)
Definition written_str (attr : string) (v : option string)
  : list (string * PyValue) :=
  match v with
  | Some s => if Py.truthy s then [(attr, PyStr s)] else []
  | None => []
  end.

Definition written_fields (vd : Attrs) : list (string * PyValue) :=
  written_str "full_name" (full_name vd)
  ++ written_str "nickname" (nickname vd)
  ++ written_str "phone" (phone vd)
  ++ match age vd with Some n => [("age", PyInt n)] | None => [] end
  ++ written_str "gender" (gender vd).

End RegisterSerializer.

(** ** The operations on the OTP table *)

(** No two stored records carry the same token. *)
Definition unique_tokens (tbl : Table) : Prop :=
  forall pk1 r1 pk2 r2,
    tbl !! pk1 = Some r1 -> tbl !! pk2 = Some r2 -> token r1 = token r2 ->
    pk1 = pk2.

(** One operation on the OTP table: a run of [VerifyOTPSerializer.validate],
    a whole VerifyOTP operation, or a registration, where
    [RegisterSerializer.validate] accepts and [RegisterSerializer.create]
    then deletes the instance found. *)
Inductive table_step (ttl : Z) : Table -> Table -> Prop :=
| step_validate now attrs tbl :
    table_step ttl tbl (VerifyOTPSerializer.validate ttl now attrs tbl).2
| step_verify now attrs tbl :
    table_step ttl tbl (VerifyOTP ttl now attrs tbl).2
| step_register now attrs tbl vd o :
    RegisterSerializer.validate ttl now attrs tbl = Ok (vd, o) ->
    table_step ttl tbl (Orm.delete o tbl).


(** ** SendOTPSerializer *)

Module SendOTPSerializer.

(** [validate_email(self, value)] *)
Definition validate_email (value : string) (users : list UserRow)
  : result string :=
  let normalized := Py.lower (Py.strip value) in
  if UserObjects.email_exists normalized users then
    Raise (DetailError "Email is already associated with an account.")
  else Ok normalized.

End SendOTPSerializer.

(** ** EmailOrUsernameTokenObtainPairSerializer *)

Module EmailOrUsernameTokenObtainPairSerializer.

(** The attributes: the value under [self.username_field], [None] when
    the key is absent, and the password. *)
Record Attrs : Type := mkAttrs {
  username : option string;
  password : string
}.

(** What [validate] comes to: the value of the inherited [validate], or
    the one exception of the query that is not caught. *)
Inductive Outcome (R : Type) : Type :=
| Returned (r : R)
| Uncaught_MultipleObjectsReturned.
Arguments Returned {R} r.
Arguments Uncaught_MultipleObjectsReturned {R}.

(** [validate(self, attrs)], with the inherited [validate] given. *)
Definition validate {R : Type} (super_validate : Attrs -> R)
    (users : list UserRow) (attrs : Attrs) : Outcome R :=
  match username attrs with
  | Some name =>
      if Py.truthy name then
        let candidate := Py.strip name in
        if PyText.contains "@" candidate then
          match UserObjects.get_by_email candidate users with
          | UserObjects.Found user =>
              Returned (super_validate
                          (mkAttrs (Some (user_username user))
                             (password attrs)))
          | UserObjects.DoesNotExist => Returned (super_validate attrs)
          | UserObjects.MultipleObjectsReturned =>
              Uncaught_MultipleObjectsReturned
          end
        else Returned (super_validate attrs)
      else Returned (super_validate attrs)
  | None => Returned (super_validate attrs)
  end.

End EmailOrUsernameTokenObtainPairSerializer.

(** ** MusicTrackSerializer *)

Module MusicTrackSerializer.

(** [get_duration(self, obj)], for [obj.duration_seconds]. *)
Definition get_duration (duration_seconds : Z) : string :=
  let minutes := duration_seconds / 60 in
  let seconds := duration_seconds mod 60 in
  PyText.format_02d minutes +:+ ":" +:+ PyText.format_02d seconds.

End MusicTrackSerializer.

(** ** Counting wrong codes *)

(** The wrong codes a record can still take before it reaches the limit
    of [VerifyOTPSerializer.validate]. *)
Definition remaining (r : EmailOTP) : Z := Z.max 0 (5 - attempts r).

(** The same, summed over the stored records a filter keeps. *)
Definition budget (keep : EmailOTP -> bool) (tbl : Table) : Z :=
  map_fold (fun _ r acc => (if keep r then remaining r else 0) + acc) 0 tbl.

Definition is_mismatch {A} (res : result A) : bool :=
  match res with
  | Raise (FieldError f m) =>
      String.eqb f "code" && String.eqb m "Incorrect OTP code."
  | _ => false
  end.

(** How many of the results are CodeMismatch. *)
Definition mismatches {A} (ress : list (result A)) : Z :=
  Z.of_nat (List.length (List.filter is_mismatch ress)).

(** ** UpcomingSessionSerializer *)

Module UpcomingSessionSerializer.

(** [timezone.timedelta(minutes=1)] *)
Definition one_minute : Z := 1 * 60 * 1000000.

Definition NotInFuture : ValidationError :=
  DetailError "Start time must be in the future.".

(** [validate_start_time(self, value)], with [timezone.now()] given. *)
Definition validate_start_time (now value : Z) : result Z :=
  if value <? now - one_minute then Raise NotInFuture else Ok value.

End UpcomingSessionSerializer.

(** ** Sample data *)

Module Samples.

(** A validity window of ten minutes, and instants four and eleven minutes
    after the creation of the sample records. *)
Definition ttl : Z := 600000000.
Definition t4 : Z := 240000000.
Definition t11 : Z := 660000000.

Definition fresh : EmailOTP :=
  mkEmailOTP "a@x.com" "123456" "tok-1" PURPOSE_REGISTRATION 0 0 false.
Definition locked : EmailOTP := set_attempts 5 fresh.
Definition verified : EmailOTP := set_is_verified true fresh.
Definition lettered : EmailOTP :=
  mkEmailOTP "a@x.com" "Ab12cd" "tok-1" PURPOSE_REGISTRATION 0 0 false.
Definition second : EmailOTP :=
  mkEmailOTP "a@x.com" "654321" "tok-2" PURPOSE_REGISTRATION t4 0 false.

Definition tbl_fresh : Table := {[ 1%positive := fresh ]}.
Definition tbl_locked : Table := {[ 1%positive := locked ]}.
Definition tbl_verified : Table := {[ 1%positive := verified ]}.
Definition tbl_lettered : Table := {[ 1%positive := lettered ]}.

Definition submit (c : string) : VerifyOTPSerializer.Attrs :=
  VerifyOTPSerializer.mkAttrs "a@x.com" c.
Definition right_code : VerifyOTPSerializer.Attrs := submit "123456".
Definition wrong_code : VerifyOTPSerializer.Attrs := submit "000000".
Definition padded_code : VerifyOTPSerializer.Attrs := submit " 123456 ".

Definition registration (e : option string) : RegisterSerializer.Attrs :=
  RegisterSerializer.mkAttrs "alice" e "secret1" None None None None None
    "tok-1".

(** A user directory that keeps nothing, to run [create] on. *)
Definition create_on_unit (vd : RegisterSerializer.Attrs) (o : OtpInstance)
    (st : RegisterSerializer.Store (Accounts := unit))
  : option unit * RegisterSerializer.Store (Accounts := unit) :=
  RegisterSerializer.create (User := unit) (Profile := unit)
    (fun _ _ _ acc => Some (tt, acc)) (fun _ acc => Some (tt, acc))
    (fun p _ _ => p) (fun _ acc => Some acc) vd o st.

(** The same directory when [create_user] raises. *)
Definition create_raising (vd : RegisterSerializer.Attrs) (o : OtpInstance)
    (st : RegisterSerializer.Store (Accounts := unit))
  : option unit * RegisterSerializer.Store (Accounts := unit) :=
  RegisterSerializer.create (User := unit) (Profile := unit)
    (fun _ _ _ _ => None) (fun _ acc => Some (tt, acc))
    (fun p _ _ => p) (fun _ acc => Some acc) vd o st.


End Samples.

(** ** More sample data *)

Module Directory.

Definition alice : UserRow := mkUserRow "alice" "alice@x.com".
Definition bob : UserRow := mkUserRow "bob" "bob@x.com".
Definition users : list UserRow := [alice; bob].

Definition login (name : string)
  : EmailOrUsernameTokenObtainPairSerializer.Attrs :=
  EmailOrUsernameTokenObtainPairSerializer.mkAttrs (Some name) "secret1".

(** A second, older record for the address of the sample records. *)
Definition older : EmailOTP :=
  mkEmailOTP "a@x.com" "111111" "tok-0" PURPOSE_REGISTRATION (-5) 0 false.
Definition other : EmailOTP :=
  mkEmailOTP "b@x.com" "222222" "tok-9" PURPOSE_REGISTRATION 0 0 false.
Definition tbl_two : Table :=
  {[ 1%positive := Samples.fresh; 2%positive := older ]}.
Definition tbl_other : Table :=
  {[ 1%positive := Samples.fresh; 3%positive := other ]}.

End Directory.

(** * Properties *)

(** ** The query [filter(...).order_by("-created_at").first()] *)

Section Queries.

Implicit Types (rows : list OtpInstance) (tbl : Table).
Implicit Types (keep : EmailOTP -> bool).

Lemma first_desc_None rows : Orm.first_desc rows = None -> rows = [].
Proof.
  destruct rows as [|r rest]; [done|]. simpl.
  destruct (Orm.first_desc rest); [|done]. by case_match.
Qed.

Lemma first_desc_Some rows o :
  Orm.first_desc rows = Some o ->
  o ∈ rows /\ forall r, r ∈ rows -> created_at r.2 <= created_at o.2.
Proof.
  revert o. induction rows as [|r rest IH]; intros o; simpl; [done|].
  destruct (Orm.first_desc rest) as [b|] eqn:Hb.
  - destruct (IH b eq_refl) as [Hin Hmax].
    destruct (created_at r.2 <? created_at b.2) eqn:Hlt; intros [= <-].
    + apply Z.ltb_lt in Hlt. split; [by right|].
      intros r' [->|Hr']%elem_of_cons; [lia|by apply Hmax].
    + apply Z.ltb_ge in Hlt. split; [by left|].
      intros r' [->|Hr']%elem_of_cons; [lia|].
      specialize (Hmax r' Hr'). lia.
  - apply first_desc_None in Hb as ->. intros [= <-]. split; [by left|].
    intros r' [->|Hr']%elem_of_cons; [lia|]. by apply elem_of_nil in Hr'.
Qed.

Lemma elem_of_kept keep tbl pk r :
  (pk, r) ∈ List.filter (fun x => keep x.2) (map_to_list tbl) <->
  tbl !! pk = Some r /\ keep r = true.
Proof.
  rewrite list_elem_of_In, filter_In, <- list_elem_of_In.
  by rewrite elem_of_map_to_list.
Qed.

(** The instance the query returns is a stored row that passes the
    filter, and no row that passes the filter was created later. *)
Lemma filter_latest_Some keep tbl pk r :
  Orm.filter_latest keep tbl = Some (pk, r) ->
  tbl !! pk = Some r /\ keep r = true /\
  forall pk' r', tbl !! pk' = Some r' -> keep r' = true ->
                 created_at r' <= created_at r.
Proof.
  unfold Orm.filter_latest. intros [Hin Hmax]%first_desc_Some.
  apply elem_of_kept in Hin as [Hpk Hk]. repeat split; [done..|].
  intros pk' r' Hpk' Hk'. apply (Hmax (pk', r')). by apply elem_of_kept.
Qed.

(** The query returns nothing exactly when no row passes the filter. *)
Lemma filter_latest_None keep tbl :
  Orm.filter_latest keep tbl = None <->
  forall pk r, tbl !! pk = Some r -> keep r = false.
Proof.
  unfold Orm.filter_latest. split.
  - intros Hn%first_desc_None pk r Hpk.
    destruct (keep r) eqn:Hk; [|done].
    assert ((pk, r) ∈ List.filter (fun x => keep x.2) (map_to_list tbl))
      as Hin by by apply elem_of_kept.
    rewrite Hn in Hin. by apply elem_of_nil in Hin.
  - intros Hall.
    destruct (Orm.first_desc _) as [[pk r]|] eqn:Hf; [|done].
    apply first_desc_Some in Hf as [[Hpk Hk]%elem_of_kept _].
    rewrite (Hall _ _ Hpk) in Hk. done.
Qed.

(** A row that passes the filter and was created strictly later than
    every other one that passes it is the row returned. *)
Lemma filter_latest_newest keep tbl pk r :
  tbl !! pk = Some r -> keep r = true ->
  (forall pk' r', tbl !! pk' = Some r' -> keep r' = true -> pk' <> pk ->
                  created_at r' < created_at r) ->
  Orm.filter_latest keep tbl = Some (pk, r).
Proof.
  intros Hpk Hk Hnew.
  destruct (Orm.filter_latest keep tbl) as [[pk0 r0]|] eqn:Hf.
  - apply filter_latest_Some in Hf as (Hpk0 & Hk0 & Hmax).
    destruct (decide (pk0 = pk)) as [->|Hne]; [by simplify_eq|].
    specialize (Hnew _ _ Hpk0 Hk0 Hne). specialize (Hmax _ _ Hpk Hk). lia.
  - rewrite filter_latest_None in Hf. rewrite (Hf _ _ Hpk) in Hk. done.
Qed.

(** Saving one column of an instance whose row is stored replaces that
    row by the instance. *)
Lemma save_attempts_stored tbl pk r n :
  tbl !! pk = Some r ->
  Orm.save_attempts (pk, set_attempts n r) tbl = <[pk := set_attempts n r]> tbl.
Proof.
  intros Hpk. unfold Orm.save_attempts. simpl. apply map_eq. intros j.
  rewrite lookup_alter, lookup_insert.
  case_decide; [subst j; by rewrite Hpk|done].
Qed.

Lemma save_is_verified_stored tbl pk r b :
  tbl !! pk = Some r ->
  Orm.save_is_verified (pk, set_is_verified b r) tbl
  = <[pk := set_is_verified b r]> tbl.
Proof.
  intros Hpk. unfold Orm.save_is_verified. simpl. apply map_eq. intros j.
  rewrite lookup_alter, lookup_insert.
  case_decide; [subst j; by rewrite Hpk|done].
Qed.

End Queries.

(** ** Stripping and letter case *)

Section Strings.

Import Py.

Lemma isspace_lower c : isspace (lower_char c) = isspace c.
Proof. by destruct c as [[] [] [] [] [] [] [] []]. Qed.

Lemma lower_char_space c : isspace c = true -> lower_char c = c.
Proof.
  destruct c as [[] [] [] [] [] [] [] []]; vm_compute; congruence.
Qed.

Lemma rstrip_lower s : rstrip (lower s) = lower (rstrip s).
Proof.
  induction s as [|c s IH]; [done|]. simpl. rewrite IH.
  destruct (rstrip s); simpl; [|done].
  rewrite isspace_lower. by destruct (isspace c).
Qed.

(** Two strings equal up to letter case and equal once stripped on the
    right are the same string. *)
Lemma rstrip_lower_inj s1 : forall s2,
  lower s1 = lower s2 -> rstrip s1 = rstrip s2 -> s1 = s2.
Proof.
  induction s1 as [|c1 s1 IH]; intros [|c2 s2]; simpl; try done.
  intros [= Hc Hs] Hr.
  assert (lower (rstrip s1) = lower (rstrip s2)) as Hl
    by by rewrite <- !rstrip_lower, Hs.
  assert (isspace c1 = isspace c2) as Hsp
    by by rewrite <- (isspace_lower c1), Hc, isspace_lower.
  destruct (rstrip s1) eqn:E1, (rstrip s2) eqn:E2; simpl in Hl; try done.
  - rewrite (IH s2 Hs) by congruence. f_equal.
    rewrite Hsp in Hr. destruct (isspace c2) eqn:E.
    + rewrite <- (lower_char_space c1), <- (lower_char_space c2); congruence.
    + congruence.
  - injection Hr as -> Hr. f_equal. apply IH; congruence.
Qed.

(** The same for [strip]: letter case apart, stripping identifies no two
    strings. *)
Lemma strip_lower_inj s1 : forall s2,
  lower s1 = lower s2 -> strip s1 = strip s2 -> s1 = s2.
Proof.
  induction s1 as [|c1 s1 IH]; intros [|c2 s2]; simpl; try done.
  intros [= Hc Hs]. unfold strip. simpl.
  assert (isspace c1 = isspace c2) as Hsp
    by by rewrite <- (isspace_lower c1), Hc, isspace_lower.
  rewrite Hsp. destruct (isspace c2) eqn:E.
  - intros Hr. f_equal.
    + rewrite <- (lower_char_space c1), <- (lower_char_space c2); congruence.
    + by apply IH.
  - intros Hr. apply rstrip_lower_inj; [|done]. simpl. congruence.
Qed.

(** The methods on sample strings. *)
Example strip_sample : strip "  12 34 	" = "12 34".
Proof. reflexivity. Qed.

Example strip_blank : strip "   " = "".
Proof. reflexivity. Qed.

Example lower_sample : lower " Alice@X.COM" = " alice@x.com".
Proof. reflexivity. Qed.

Example iexact_sample : Orm.iexact "Alice@X.com" "alice@x.COM" = true.
Proof. reflexivity. Qed.

End Strings.

(** ** VerifyOTP: the order of the checks *)

(** Settles the conditions of [validate] from the hypotheses at hand. *)
Ltac run_checks :=
  repeat match goal with
    | H : is_expired _ _ _ = _ |- _ => rewrite H
    | H : 5 <= attempts _ |- _ => apply Z.leb_le in H; rewrite H
    | H : attempts _ < 5 |- _ => apply Z.leb_gt in H; rewrite H
    | H : code _ = VerifyOTPSerializer.code_of _ |- _ =>
        apply String.eqb_eq in H; rewrite H
    | H : code _ <> VerifyOTPSerializer.code_of _ |- _ =>
        apply String.eqb_neq in H; rewrite H
    end; simpl.

Section Verify.

Import VerifyOTPSerializer.
Implicit Types (attrs : Attrs) (tbl : Table) (o : OtpInstance).

Lemma errors_distinct :
  NotFound <> Expired /\ NotFound <> AttemptsExceeded /\
  NotFound <> CodeMismatch /\ Expired <> AttemptsExceeded /\
  Expired <> CodeMismatch /\ AttemptsExceeded <> CodeMismatch.
Proof. repeat split; discriminate. Qed.

(** What [validate] does once the instance it looked up is known. *)
Lemma validate_found ttl now attrs tbl o :
  lookup (email_of attrs) tbl = Some o ->
  validate ttl now attrs tbl =
    if is_expired ttl now o.2 then (Raise Expired, tbl)
    else if 5 <=? attempts o.2 then (Raise AttemptsExceeded, tbl)
    else if negb (String.eqb (code o.2) (code_of attrs)) then
      (Raise CodeMismatch,
       <[o.1 := set_attempts (attempts o.2 + 1) o.2]> tbl)
    else (Ok (mkValidated attrs o), tbl).
Proof.
  intros H. unfold validate. rewrite H. destruct o as [pk r].
  apply filter_latest_Some in H as (Hpk & _).
  by rewrite (save_attempts_stored _ _ _ _ Hpk).
Qed.

(** C1. [validate] checks, in this order, that a record is found, that
    it is not expired, that its attempts are below 5 and that the code
    matches; the first check that fails decides the error, whatever the
    later checks would say, and the four errors are pairwise distinct.
    In particular a record both expired and at the attempts limit is
    reported as expired. *)
Theorem validate_check_order ttl now attrs tbl :
  (lookup (email_of attrs) tbl = None ->
   (validate ttl now attrs tbl).1 = Raise NotFound) /\
  (forall o, lookup (email_of attrs) tbl = Some o ->
     is_expired ttl now o.2 = true ->
     (validate ttl now attrs tbl).1 = Raise Expired) /\
  (forall o, lookup (email_of attrs) tbl = Some o ->
     is_expired ttl now o.2 = false -> 5 <= attempts o.2 ->
     (validate ttl now attrs tbl).1 = Raise AttemptsExceeded) /\
  (forall o, lookup (email_of attrs) tbl = Some o ->
     is_expired ttl now o.2 = false -> attempts o.2 < 5 ->
     code o.2 <> code_of attrs ->
     (validate ttl now attrs tbl).1 = Raise CodeMismatch) /\
  (forall o, lookup (email_of attrs) tbl = Some o ->
     is_expired ttl now o.2 = true -> 5 <= attempts o.2 ->
     (validate ttl now attrs tbl).1 = Raise Expired /\
     (validate ttl now attrs tbl).1 <> Raise AttemptsExceeded) /\
  (NotFound <> Expired /\ NotFound <> AttemptsExceeded /\
   NotFound <> CodeMismatch /\ Expired <> AttemptsExceeded /\
   Expired <> CodeMismatch /\ AttemptsExceeded <> CodeMismatch).
Proof.
  split; [|split; [|split; [|split; [|split]]]].
  - intros H. unfold validate. by rewrite H.
  - intros o H He. rewrite (validate_found _ _ _ _ _ H). by run_checks.
  - intros o H He Ha. rewrite (validate_found _ _ _ _ _ H). by run_checks.
  - intros o H He Ha Hc. rewrite (validate_found _ _ _ _ _ H).
    by run_checks.
  - intros o H He _. rewrite (validate_found _ _ _ _ _ H), He.
    split; [done|discriminate].
  - exact errors_distinct.
Qed.

Lemma validate_check_order_witness :
  (validate Samples.ttl Samples.t4 Samples.right_code ∅).1
  = Raise NotFound /\
  (validate Samples.ttl Samples.t11 Samples.right_code Samples.tbl_fresh).1
  = Raise Expired /\
  (validate Samples.ttl Samples.t4 Samples.right_code Samples.tbl_locked).1
  = Raise AttemptsExceeded /\
  (validate Samples.ttl Samples.t4 Samples.wrong_code Samples.tbl_fresh).1
  = Raise CodeMismatch /\
  (validate Samples.ttl Samples.t11 Samples.right_code Samples.tbl_locked).1
  = Raise Expired.
Proof.
  split; [|split; [|split; [|split]]].
  - apply (proj1 (validate_check_order Samples.ttl Samples.t4
                    Samples.right_code ∅)).
    vm_compute. reflexivity.
  - apply (proj1 (proj2 (validate_check_order Samples.ttl Samples.t11
                           Samples.right_code Samples.tbl_fresh))
             (1%positive, Samples.fresh)); vm_compute; reflexivity.
  - apply (proj1 (proj2 (proj2 (validate_check_order Samples.ttl Samples.t4
                                  Samples.right_code Samples.tbl_locked)))
             (1%positive, Samples.locked)); vm_compute; congruence.
  - apply (proj1 (proj2 (proj2 (proj2
             (validate_check_order Samples.ttl Samples.t4
                Samples.wrong_code Samples.tbl_fresh))))
             (1%positive, Samples.fresh)); vm_compute; congruence.
  - apply (proj1 (proj2 (proj2 (proj2 (proj2
             (validate_check_order Samples.ttl Samples.t11
                Samples.right_code Samples.tbl_locked)))))
             (1%positive, Samples.locked)); vm_compute; congruence.
Defined.

(** ** VerifyOTP: what each branch does to the table *)

(** The table after [validate] differs from the table before at most in
    the attempts counter of the instance looked up. *)
Lemma validate_table ttl now attrs tbl :
  (validate ttl now attrs tbl).2 = tbl \/
  exists o, lookup (email_of attrs) tbl = Some o /\
    (validate ttl now attrs tbl).1 = Raise CodeMismatch /\
    (validate ttl now attrs tbl).2
      = <[o.1 := set_attempts (attempts o.2 + 1) o.2]> tbl.
Proof.
  destruct (lookup (email_of attrs) tbl) as [o|] eqn:Hl.
  - rewrite (validate_found _ _ _ _ _ Hl).
    repeat case_match; simpl; eauto.
  - unfold validate. rewrite Hl. by left.
Qed.

Lemma insert_attempts_changes tbl pk r :
  tbl !! pk = Some r -> <[pk := set_attempts (attempts r + 1) r]> tbl <> tbl.
Proof.
  intros Hpk Heq.
  assert (<[pk := set_attempts (attempts r + 1) r]> tbl !! pk = Some r)
    as Hrow by by rewrite Heq.
  rewrite lookup_insert_eq in Hrow.
  assert (attempts (set_attempts (attempts r + 1) r) = attempts r) as Ha
    by congruence.
  simpl in Ha. lia.
Qed.

(** The shape of a branch that raises another error and writes nothing. *)
Lemma quiet_branch (e : ValidationError) (t : Table) (P : Prop) :
  e <> CodeMismatch ->
  (@Raise Validated e = Raise CodeMismatch -> P) /\
  (forall e', @Raise Validated e = Raise e' -> e' <> CodeMismatch -> t = t) /\
  (forall v, @Raise Validated e = Ok v -> t = t) /\
  (t <> t <-> @Raise Validated e = Raise CodeMismatch).
Proof.
  intros He. split; [|split; [|split; [|split]]]; try done.
  - by intros [= ->].
  - by intros [= ->].
Qed.

(** C4. [validate] writes to the table exactly when it fails with
    CodeMismatch: then the instance looked up is stored again with its
    attempts counter one higher and every other field, and every other
    row, as before; on NotFound, Expired and AttemptsExceeded (and on
    success) the table is left as it was. *)
Theorem attempts_persisted_only_on_mismatch ttl now attrs tbl :
  ((validate ttl now attrs tbl).1 = Raise CodeMismatch ->
   exists pk r, lookup (email_of attrs) tbl = Some (pk, r) /\
     tbl !! pk = Some r /\
     (validate ttl now attrs tbl).2 !! pk
       = Some (mkEmailOTP (email r) (code r) (token r) (purpose r)
                 (created_at r) (attempts r + 1) (is_verified r)) /\
     forall pk', pk' <> pk ->
       (validate ttl now attrs tbl).2 !! pk' = tbl !! pk') /\
  (forall e, (validate ttl now attrs tbl).1 = Raise e ->
     e <> CodeMismatch -> (validate ttl now attrs tbl).2 = tbl) /\
  (forall v, (validate ttl now attrs tbl).1 = Ok v ->
     (validate ttl now attrs tbl).2 = tbl) /\
  ((validate ttl now attrs tbl).2 <> tbl <->
   (validate ttl now attrs tbl).1 = Raise CodeMismatch).
Proof.
  destruct (lookup (email_of attrs) tbl) as [[pk r]|] eqn:Hl.
  - rewrite (validate_found _ _ _ _ _ Hl). simpl.
    pose proof Hl as (Hpk & _)%filter_latest_Some.
    destruct (is_expired ttl now r); [by apply quiet_branch|].
    destruct (5 <=? attempts r); [by apply quiet_branch|].
    destruct (negb (String.eqb (code r) (code_of attrs))); simpl.
    + split; [|split; [|split]]; try done.
      * intros _. exists pk, r. repeat split; [done| |].
        -- by rewrite lookup_insert_eq.
        -- intros pk' Hne. by rewrite lookup_insert_ne.
      * by intros e [= <-] He.
      * split; [done|]. intros _. by apply insert_attempts_changes.
    + repeat split; try done.
  - unfold validate. rewrite Hl. by apply quiet_branch.
Qed.

Lemma attempts_persisted_only_on_mismatch_witness :
  (exists pk r,
     lookup (email_of Samples.wrong_code) Samples.tbl_fresh = Some (pk, r) /\
     Samples.tbl_fresh !! pk = Some r /\
     (validate Samples.ttl Samples.t4 Samples.wrong_code Samples.tbl_fresh).2
       !! pk
       = Some (mkEmailOTP (email r) (code r) (token r) (purpose r)
                 (created_at r) (attempts r + 1) (is_verified r)) /\
     forall pk', pk' <> pk ->
       (validate Samples.ttl Samples.t4 Samples.wrong_code
          Samples.tbl_fresh).2 !! pk' = Samples.tbl_fresh !! pk') /\
  (validate Samples.ttl Samples.t11 Samples.wrong_code Samples.tbl_fresh).2
  = Samples.tbl_fresh /\
  (validate Samples.ttl Samples.t4 Samples.right_code Samples.tbl_fresh).2
  = Samples.tbl_fresh.
Proof.
  split; [|split].
  - apply (proj1 (attempts_persisted_only_on_mismatch Samples.ttl Samples.t4
                    Samples.wrong_code Samples.tbl_fresh)).
    vm_compute. reflexivity.
  - apply (proj1 (proj2 (attempts_persisted_only_on_mismatch Samples.ttl
                           Samples.t11 Samples.wrong_code Samples.tbl_fresh))
             Expired); [vm_compute; reflexivity | discriminate].
  - apply (proj1 (proj2 (proj2 (attempts_persisted_only_on_mismatch
                                  Samples.ttl Samples.t4 Samples.right_code
                                  Samples.tbl_fresh)))
             (mkValidated Samples.right_code (1%positive, Samples.fresh))).
    vm_compute. reflexivity.
Defined.

(** ** VerifyOTP: success *)




End Verify.

(** ** VerifyOTP: how the code is compared *)

Section CodeComparison.

Import VerifyOTPSerializer.
Implicit Types (attrs : Attrs) (tbl : Table).

(** An accepted call found a live record whose code is the stripped
    submission. *)
Lemma accepted_inv ttl now attrs tbl :
  accepted ttl now attrs tbl = true ->
  exists o, lookup (email_of attrs) tbl = Some o /\
    is_expired ttl now o.2 = false /\ attempts o.2 < 5 /\
    code o.2 = Py.strip (attrs_code attrs).
Proof.
  unfold accepted.
  destruct (lookup (email_of attrs) tbl) as [o|] eqn:Hl.
  - rewrite (validate_found _ _ _ _ _ Hl).
    destruct (is_expired ttl now o.2) eqn:He; [done|].
    destruct (5 <=? attempts o.2) eqn:Ha; [done|].
    destruct (String.eqb (code o.2) (code_of attrs)) eqn:Hc; [|done].
    intros _. exists o. apply Z.leb_gt in Ha. apply String.eqb_eq in Hc.
    repeat split; [done..|exact Hc].
  - unfold validate. by rewrite Hl.
Qed.

(** C3 as stated does not hold: "123456" and " 123456 " differ only in
    surrounding whitespace and are both accepted for the stored code
    "123456", by [validate] itself and by the serializer run on the
    submitted data. *)
Lemma padded_code_accepted :
  attrs_code Samples.padded_code <> attrs_code Samples.right_code /\
  Py.strip (attrs_code Samples.padded_code)
    = Py.strip (attrs_code Samples.right_code) /\
  code Samples.fresh = "123456" /\
  accepted Samples.ttl Samples.t4 Samples.right_code Samples.tbl_fresh
    = true /\
  accepted Samples.ttl Samples.t4 Samples.padded_code Samples.tbl_fresh
    = true /\
  is_ok (run_validation Samples.ttl Samples.t4 Samples.right_code
           Samples.tbl_fresh).1 = true /\
  is_ok (run_validation Samples.ttl Samples.t4 Samples.padded_code
           Samples.tbl_fresh).1 = true.
Proof. repeat split; [discriminate | vm_compute; reflexivity ..]. Qed.

(** C3, amended. [validate] strips surrounding whitespace from the
    submitted code and compares the result with the stored code exactly,
    letter case included: against a live record a call is accepted
    exactly when the stripped submission is the stored code. So of two
    submissions that differ only in letter case at most one is accepted,
    and two that differ only in surrounding whitespace are accepted or
    refused together. *)
Theorem code_compared_after_strip ttl now tbl email_ :
  (forall c o,
     lookup (email_of (mkAttrs email_ c)) tbl = Some o ->
     is_expired ttl now o.2 = false -> attempts o.2 < 5 ->
     (accepted ttl now (mkAttrs email_ c) tbl = true
      <-> Py.strip c = code o.2)) /\
  (forall c1 c2,
     Py.lower c1 = Py.lower c2 -> c1 <> c2 ->
     accepted ttl now (mkAttrs email_ c1) tbl = true ->
     accepted ttl now (mkAttrs email_ c2) tbl = false) /\
  (forall c1 c2,
     Py.strip c1 = Py.strip c2 ->
     accepted ttl now (mkAttrs email_ c1) tbl
     = accepted ttl now (mkAttrs email_ c2) tbl).
Proof.
  split; [|split].
  - intros c o Hl He Ha. split.
    + intros (o' & Hl' & _ & _ & Hc)%accepted_inv. simpl in Hc. congruence.
    + intros Hc. unfold accepted.
      rewrite (validate_found _ _ _ _ _ Hl). run_checks.
      unfold code_of. simpl. by rewrite Hc, String.eqb_refl.
  - intros c1 c2 Hlow Hne (o1 & Hl1 & _ & _ & Hc1)%accepted_inv.
    destruct (accepted ttl now (mkAttrs email_ c2) tbl) eqn:H2; [|done].
    apply accepted_inv in H2 as (o2 & Hl2 & _ & _ & Hc2).
    unfold email_of in *. simpl in *.
    destruct Hne. apply strip_lower_inj; congruence.
  - intros c1 c2 Hs.
    assert (code_of (mkAttrs email_ c1) = code_of (mkAttrs email_ c2)) as Hc
      by exact Hs.
    unfold accepted, validate. rewrite Hc.
    change (email_of (mkAttrs email_ c1)) with (email_of (mkAttrs email_ c2)).
    destruct (lookup _ tbl) as [o|]; [|done].
    destruct (is_expired ttl now o.2); [done|].
    destruct (5 <=? attempts o.2); [done|].
    by destruct (String.eqb _ _).
Qed.

Lemma code_compared_after_strip_witness :
  accepted Samples.ttl Samples.t4 (Samples.submit "Ab12cd ")
    Samples.tbl_lettered = true /\
  accepted Samples.ttl Samples.t4 (Samples.submit "ab12cd")
    Samples.tbl_lettered = false /\
  accepted Samples.ttl Samples.t4 (Samples.submit "Ab12cd ")
    Samples.tbl_lettered
  = accepted Samples.ttl Samples.t4 (Samples.submit "Ab12cd")
      Samples.tbl_lettered.
Proof.
  split; [|split].
  - apply (proj1 (code_compared_after_strip Samples.ttl Samples.t4
                    Samples.tbl_lettered "a@x.com") "Ab12cd "
             (1%positive, Samples.lettered));
      vm_compute; congruence.
  - apply (proj1 (proj2 (code_compared_after_strip Samples.ttl Samples.t4
                           Samples.tbl_lettered "a@x.com"))
             "Ab12cd" "ab12cd");
      [vm_compute; reflexivity | discriminate | vm_compute; reflexivity].
  - apply (proj2 (proj2 (code_compared_after_strip Samples.ttl Samples.t4
                           Samples.tbl_lettered "a@x.com"))).
    vm_compute. reflexivity.
Defined.

End CodeComparison.

(** ** VerifyOTP: the attempts limit *)

Section Lockout.

Import VerifyOTPSerializer.
Implicit Types (attrs : Attrs) (tbl : Table).

(** C5 as stated does not hold: the record has 5 attempts and the submitted
    code is the stored one, yet eleven minutes after creation the call
    fails with Expired, not with AttemptsExceeded. *)
Lemma locked_and_expired_reports_Expired :
  lookup (email_of Samples.right_code) Samples.tbl_locked
    = Some (1%positive, Samples.locked) /\
  attempts Samples.locked = 5 /\
  code Samples.locked = attrs_code Samples.right_code /\
  (validate Samples.ttl Samples.t11 Samples.right_code Samples.tbl_locked).1
    = Raise Expired /\
  (validate Samples.ttl Samples.t11 Samples.right_code Samples.tbl_locked).1
    <> Raise AttemptsExceeded.
Proof.
  repeat split; [vm_compute; reflexivity ..|vm_compute; discriminate].
Qed.

(** One call against a record at the limit: it fails, with Expired when
    the record is expired and with AttemptsExceeded otherwise, and the
    table is left as it was. *)
Lemma validate_locked ttl now attrs tbl o :
  lookup (email_of attrs) tbl = Some o -> 5 <= attempts o.2 ->
  validate ttl now attrs tbl =
    (Raise (if is_expired ttl now o.2 then Expired else AttemptsExceeded),
     tbl).
Proof.
  intros Hl Ha. rewrite (validate_found _ _ _ _ _ Hl).
  destruct (is_expired ttl now o.2); [done|]. by run_checks.
Qed.

(** C5, amended. Once the attempts counter of the record a call looks up
    has reached 5, every later call against that record fails, whatever
    code is submitted and so also for the stored code: with
    AttemptsExceeded while the record is not expired and with Expired
    once it is; none of these calls changes the table. *)
Theorem lockout_dominates_correct_code ttl email_ tbl o calls :
  lookup email_ tbl = Some o ->
  5 <= attempts o.2 ->
  Forall (fun c => email_of c.2 = email_) calls ->
  validate_all ttl calls tbl =
    (map (fun c => Raise (if is_expired ttl c.1 o.2 then Expired
                          else AttemptsExceeded)) calls,
     tbl) /\
  Forall (fun res => is_ok res = false) (validate_all ttl calls tbl).1.
Proof.
  intros Hl Ha Hcalls.
  assert (validate_all ttl calls tbl =
    (map (fun c => Raise (if is_expired ttl c.1 o.2 then Expired
                          else AttemptsExceeded)) calls, tbl)) as Hrun.
  { induction Hcalls as [|c calls Hc _ IH]; [done|]. simpl.
    rewrite (validate_locked ttl c.1 c.2 tbl o) by congruence.
    by rewrite IH. }
  split; [done|]. rewrite Hrun. simpl.
  apply Forall_forall. intros res (c & -> & _)%list_elem_of_fmap. done.
Qed.

Lemma lockout_dominates_correct_code_witness :
  validate_all Samples.ttl
    [(Samples.t4, Samples.right_code); (Samples.t4, Samples.wrong_code);
     (Samples.t11, Samples.right_code)]
    Samples.tbl_locked
  = ([Raise AttemptsExceeded; Raise AttemptsExceeded; Raise Expired],
     Samples.tbl_locked).
Proof.
  apply (lockout_dominates_correct_code Samples.ttl "a@x.com"
           Samples.tbl_locked (1%positive, Samples.locked)
           [(Samples.t4, Samples.right_code);
            (Samples.t4, Samples.wrong_code);
            (Samples.t11, Samples.right_code)]).
  - vm_compute. reflexivity.
  - vm_compute. congruence.
  - repeat constructor.
Defined.

(** The worked example of the specification: four wrong codes and then
    the right one, four minutes after creation. The first four calls fail
    with CodeMismatch, the fifth is accepted, and the counter stands at 4. *)
Example four_wrong_then_right :
  let calls := [(Samples.t4, Samples.wrong_code);
                (Samples.t4, Samples.wrong_code);
                (Samples.t4, Samples.wrong_code);
                (Samples.t4, Samples.wrong_code);
                (Samples.t4, Samples.right_code)] in
  (validate_all Samples.ttl calls Samples.tbl_fresh).1
  = [Raise CodeMismatch; Raise CodeMismatch; Raise CodeMismatch;
     Raise CodeMismatch;
     Ok (mkValidated Samples.right_code
           (1%positive, set_attempts 4 Samples.fresh))] /\
  (validate_all Samples.ttl calls Samples.tbl_fresh).2
  = {[ 1%positive := set_attempts 4 Samples.fresh ]}.
Proof. split; vm_compute; reflexivity. Qed.

(** Five wrong codes lock the record: the right code is then refused. *)
Example five_wrong_then_right :
  let calls := [(Samples.t4, Samples.wrong_code);
                (Samples.t4, Samples.wrong_code);
                (Samples.t4, Samples.wrong_code);
                (Samples.t4, Samples.wrong_code);
                (Samples.t4, Samples.wrong_code);
                (Samples.t4, Samples.right_code)] in
  (validate_all Samples.ttl calls Samples.tbl_fresh).1
  = [Raise CodeMismatch; Raise CodeMismatch; Raise CodeMismatch;
     Raise CodeMismatch; Raise CodeMismatch; Raise AttemptsExceeded] /\
  (validate_all Samples.ttl calls Samples.tbl_fresh).2 = Samples.tbl_locked.
Proof. split; vm_compute; reflexivity. Qed.

End Lockout.

(** ** VerifyOTP: which record is looked up *)

Section MostRecent.

Import VerifyOTPSerializer.
Implicit Types (attrs : Attrs) (tbl : Table).

Lemma verify_keep_true email_ r :
  keep email_ r = true <->
  Orm.iexact (email r) email_ = true /\ purpose r = PURPOSE_REGISTRATION.
Proof.
  unfold keep. rewrite andb_true_iff.
  destruct (purpose r); simpl; intuition congruence.
Qed.

(** The filter of the query, spelled out: the record's address is the
    queried one up to letter case, and its purpose is REGISTRATION. *)
Lemma verify_keep_lower email_ r :
  keep email_ r = true <->
  Py.lower (email r) = Py.lower email_ /\ purpose r = PURPOSE_REGISTRATION.
Proof.
  rewrite verify_keep_true. unfold Orm.iexact. by rewrite String.eqb_eq.
Qed.

Lemma same_address_lower stored queried :
  same_address stored queried -> Py.lower stored = Py.lower queried.
Proof. by intros [->|[_ ?]]. Qed.

(** C9. The lookup of [validate] returns a stored record whose address is
    the queried one up to letter case and whose purpose is REGISTRATION,
    than which no record of that address and purpose was created later;
    it returns one whenever such a record is stored, and nothing when no
    stored record has the address, even up to letter case, and the
    purpose (then [validate] fails with NotFound). A record created under
    a new key for the same address, later than all those stored, is the
    one the lookup returns from then on, and every older record is still
    stored. "Of that address" is [same_address]: the queried address
    itself or, when it is of ASCII characters, a spelling of it in
    another letter case. *)
Theorem lookup_prefers_most_recent tbl email_ :
  (forall pk r, lookup email_ tbl = Some (pk, r) ->
     tbl !! pk = Some r /\
     Py.lower (email r) = Py.lower email_ /\
     purpose r = PURPOSE_REGISTRATION /\
     forall pk' r', tbl !! pk' = Some r' ->
       same_address (email r') email_ ->
       purpose r' = PURPOSE_REGISTRATION ->
       created_at r' <= created_at r) /\
  (forall pk r, tbl !! pk = Some r ->
     same_address (email r) email_ ->
     purpose r = PURPOSE_REGISTRATION ->
     exists o, lookup email_ tbl = Some o) /\
  ((forall pk r, tbl !! pk = Some r ->
      Py.lower (email r) <> Py.lower email_ \/
      purpose r <> PURPOSE_REGISTRATION) ->
   lookup email_ tbl = None) /\
  (forall ttl now attrs, email_of attrs = email_ ->
     ((validate ttl now attrs tbl).1 = Raise NotFound
      <-> lookup email_ tbl = None)) /\
  (forall pk row, tbl !! pk = None ->
     same_address (email row) email_ ->
     purpose row = PURPOSE_REGISTRATION ->
     (forall pk' r', tbl !! pk' = Some r' ->
        Py.lower (email r') = Py.lower email_ ->
        purpose r' = PURPOSE_REGISTRATION ->
        created_at r' < created_at row) ->
     lookup email_ (Orm.create pk row tbl) = Some (pk, row) /\
     forall pk' r', tbl !! pk' = Some r' ->
                    Orm.create pk row tbl !! pk' = Some r').
Proof.
  split; [|split; [|split; [|split]]].
  - intros pk r (Hpk & [? ?]%verify_keep_lower & Hmax)%filter_latest_Some.
    repeat split; [done..|].
    intros pk' r' Hpk' He%same_address_lower Hp. apply (Hmax pk' r' Hpk').
    by apply verify_keep_lower.
  - intros pk r Hpk He%same_address_lower Hp. unfold lookup.
    destruct (Orm.filter_latest (keep email_) tbl) as [o|] eqn:Hf; [eauto|].
    rewrite filter_latest_None in Hf.
    assert (keep email_ r = true) as Hk by by apply verify_keep_lower.
    rewrite (Hf _ _ Hpk) in Hk. done.
  - unfold lookup. rewrite filter_latest_None.
    intros Hall pk r Hpk.
    destruct (keep email_ r) eqn:Hk; [|done].
    apply verify_keep_lower in Hk as [He Hp].
    destruct (Hall pk r Hpk); done.
  - intros ttl now attrs <-.
    destruct (lookup (email_of attrs) tbl) as [o|] eqn:Hl.
    + rewrite (validate_found _ _ _ _ _ Hl).
      split; [|done]. repeat case_match; simpl; discriminate.
    + unfold validate. by rewrite Hl.
  - intros pk row Hfree He%same_address_lower Hp Hnew. unfold Orm.create.
    split.
    + apply filter_latest_newest.
      * by rewrite lookup_insert_eq.
      * by apply verify_keep_lower.
      * intros pk' r' Hpk' [? ?]%verify_keep_lower Hne.
        rewrite lookup_insert_ne in Hpk' by done. eauto.
    + intros pk' r' Hpk'. rewrite lookup_insert_ne; [done|]. congruence.
Qed.

Lemma lookup_prefers_most_recent_witness :
  (exists o, lookup "a@x.com" Samples.tbl_fresh = Some o) /\
  lookup "a@x.com" (Orm.create 2%positive Samples.second Samples.tbl_fresh)
  = Some (2%positive, Samples.second) /\
  Orm.create 2%positive Samples.second Samples.tbl_fresh !! 1%positive
  = Some Samples.fresh /\
  lookup "b@x.com" Samples.tbl_fresh = None.
Proof.
  assert (lookup "a@x.com"
            (Orm.create 2%positive Samples.second Samples.tbl_fresh)
          = Some (2%positive, Samples.second) /\
          forall pk' r', Samples.tbl_fresh !! pk' = Some r' ->
            Orm.create 2%positive Samples.second Samples.tbl_fresh !! pk'
            = Some r') as [Hnew Hold].
  { apply (proj2 (proj2 (proj2 (proj2
             (lookup_prefers_most_recent Samples.tbl_fresh "a@x.com"))))).
    - vm_compute. reflexivity.
    - left. reflexivity.
    - reflexivity.
    - intros pk' r' Hpk' _ _. unfold Samples.tbl_fresh in Hpk'.
      apply lookup_singleton_Some in Hpk' as [<- <-]. vm_compute. reflexivity. }
  split; [|split; [|split]].
  - apply (proj1 (proj2 (lookup_prefers_most_recent Samples.tbl_fresh
                           "a@x.com")) 1%positive Samples.fresh).
    + vm_compute. reflexivity.
    + left. reflexivity.
    + reflexivity.
  - exact Hnew.
  - apply Hold. vm_compute. reflexivity.
  - apply (proj1 (proj2 (proj2 (lookup_prefers_most_recent Samples.tbl_fresh
                                  "b@x.com")))).
    intros pk r Hpk. unfold Samples.tbl_fresh in Hpk.
    apply lookup_singleton_Some in Hpk as [_ <-]. left. vm_compute.
    discriminate.
Defined.

End MostRecent.

(** ** What the operations do to the rows of the table *)

Section TableSteps.

Implicit Types (tbl : Table) (pk : positive).

Lemma validate_Ok ttl now attrs tbl v tbl' :
  VerifyOTPSerializer.validate ttl now attrs tbl = (Ok v, tbl') ->
  tbl' = tbl /\
  VerifyOTPSerializer.lookup (VerifyOTPSerializer.email_of attrs) tbl
    = Some (VerifyOTPSerializer.otp v).
Proof.
  unfold VerifyOTPSerializer.validate.
  destruct (VerifyOTPSerializer.lookup _ tbl) as [o|]; [|done].
  repeat case_match; try done. by intros [= <- <-].
Qed.

(** What the VerifyOTP operation leaves in the table: the table as it
    was with one row replaced by a row of the same token, or the table as
    it was. *)
Lemma VerifyOTP_table ttl now attrs tbl :
  (VerifyOTP ttl now attrs tbl).2 = tbl \/
  exists pk r r', tbl !! pk = Some r /\ token r' = token r /\
    (VerifyOTP ttl now attrs tbl).2 = <[pk := r']> tbl.
Proof.
  unfold VerifyOTP.
  destruct (VerifyOTPSerializer.validate ttl now attrs tbl)
    as [[v|e] tbl'] eqn:Hv.
  - apply validate_Ok in Hv as [-> Hl].
    destruct (VerifyOTPSerializer.otp v) as [pk r].
    apply filter_latest_Some in Hl as (Hpk & _). simpl.
    rewrite (save_is_verified_stored _ _ _ _ Hpk). right.
    by exists pk, r, (set_is_verified true r).
  - destruct (validate_table ttl now attrs tbl)
      as [Heq|([pk r] & Hl & _ & Heq)]; rewrite Hv in Heq; simpl in *.
    + by left.
    + apply filter_latest_Some in Hl as (Hpk & _). right.
      by exists pk, r, (set_attempts (attempts r + 1) r).
Qed.

(** Replacing a stored row by one of the same token adds no key, removes
    none and moves no token. *)
Lemma replaced_lookup tbl pk0 r0 r0' pk :
  tbl !! pk0 = Some r0 -> token r0' = token r0 ->
  (tbl !! pk = None <-> <[pk0 := r0']> tbl !! pk = None) /\
  (forall r', <[pk0 := r0']> tbl !! pk = Some r' ->
     exists r, tbl !! pk = Some r /\ token r' = token r).
Proof.
  intros Hpk0 Ht. rewrite lookup_insert. case_decide as Heq.
  - subst pk. rewrite Hpk0. split; [done|]. intros r' [= <-]. eauto.
  - split; [done|]. eauto.
Qed.

(** One operation: a key is absent afterwards only if it was absent
    before or the operation is a registration deleting it, and a row
    stored afterwards was stored before, with the same token. *)
Lemma step_lookup ttl tbl tbl' pk :
  table_step ttl tbl tbl' ->
  (tbl !! pk = None -> tbl' !! pk = None) /\
  (forall r', tbl' !! pk = Some r' ->
     exists r, tbl !! pk = Some r /\ token r' = token r) /\
  (is_Some (tbl !! pk) -> tbl' !! pk = None ->
   exists now attrs vd r,
     RegisterSerializer.validate ttl now attrs tbl = Ok (vd, (pk, r)) /\
     tbl' = Orm.delete (pk, r) tbl).
Proof.
  intros [now attrs t|now attrs t|now attrs t vd [pk0 r0] Hv].
  - destruct (validate_table ttl now attrs t)
      as [->|([pk0 r0] & Hl & _ & ->)].
    + split; [done|]. split; [by eauto|]. by intros [r ->].
    + apply filter_latest_Some in Hl as (Hpk0 & _). simpl.
      destruct (replaced_lookup t pk0 r0
                  (set_attempts (attempts r0 + 1) r0) pk Hpk0 eq_refl)
        as [Hn Hs].
      split; [by apply Hn|]. split; [done|].
      intros [r Hr] Hnone. apply Hn in Hnone. congruence.
  - destruct (VerifyOTP_table ttl now attrs t)
      as [->|(pk0 & r0 & r0' & Hpk0 & Ht & ->)].
    + split; [done|]. split; [by eauto|]. by intros [r ->].
    + destruct (replaced_lookup t pk0 r0 r0' pk Hpk0 Ht) as [Hn Hs].
      split; [by apply Hn|]. split; [done|].
      intros [r Hr] Hnone. apply Hn in Hnone. congruence.
  - unfold Orm.delete. simpl. rewrite lookup_delete.
    case_decide as Heq.
    + subst pk0. split; [done|]. split; [done|]. intros _ _. eauto 6.
    + split; [done|]. split; [by eauto|]. by intros [r ->].
Qed.

(** However many operations follow, a key that is absent stays absent and
    a stored row keeps its token. *)
Lemma steps_lookup ttl tbl tbl' pk :
  rtc (table_step ttl) tbl tbl' ->
  (tbl !! pk = None -> tbl' !! pk = None) /\
  (forall r', tbl' !! pk = Some r' ->
     exists r, tbl !! pk = Some r /\ token r' = token r).
Proof.
  induction 1 as [tbl|tbl tbl1 tbl' Hstep _ [IHn IHs]]; [by eauto|].
  destruct (step_lookup ttl tbl tbl1 pk Hstep) as (Hn & Hs & _). split.
  - auto.
  - intros r' (r1 & Hr1 & Ht1)%IHs. destruct (Hs r1 Hr1) as (r & Hr & Ht).
    exists r. split; [done|congruence].
Qed.

End TableSteps.

(** ** The attempts counter after verification and after deletion *)

Section AttemptsInvariant.

Import VerifyOTPSerializer.

(** C6 as stated does not hold for verified records: the record of
    [Samples.tbl_verified], which is what a successful VerifyOTP leaves
    behind, has [is_verified] true and 0 attempts, and a later call with
    a wrong code stores it with 1 attempt. *)
Lemma verified_record_attempts_incremented :
  (VerifyOTP Samples.ttl Samples.t4 Samples.right_code Samples.tbl_fresh).2
    = Samples.tbl_verified /\
  Samples.tbl_verified !! 1%positive = Some Samples.verified /\
  is_verified Samples.verified = true /\
  attempts Samples.verified = 0 /\
  (validate Samples.ttl Samples.t4 Samples.wrong_code Samples.tbl_verified).2
    !! 1%positive = Some (set_attempts 1 Samples.verified) /\
  is_verified (set_attempts 1 Samples.verified) = true /\
  attempts (set_attempts 1 Samples.verified) = 1.
Proof. repeat split; vm_compute; reflexivity. Qed.

(** C6, amended. After a record has been deleted its attempts counter is
    never incremented: whatever operations follow, nothing is stored
    under its key again. While a record is stored, a call that finds it
    unexpired, below the limit and with another code increments its
    counter whether or not [is_verified] is already true; the flag is
    not read and is left as it was. *)
Theorem attempts_never_incremented_after_delete ttl :
  (forall o tbl, Orm.delete o tbl !! o.1 = None) /\
  (forall tbl tbl' pk,
     rtc (table_step ttl) tbl tbl' -> tbl !! pk = None ->
     tbl' !! pk = None) /\
  (forall now attrs tbl pk r,
     lookup (email_of attrs) tbl = Some (pk, r) ->
     is_expired ttl now r = false -> attempts r < 5 ->
     code r <> code_of attrs ->
     (validate ttl now attrs tbl).2 !! pk
       = Some (mkEmailOTP (email r) (code r) (token r) (purpose r)
                 (created_at r) (attempts r + 1) (is_verified r))).
Proof.
  split; [|split].
  - intros o tbl. unfold Orm.delete. apply lookup_delete_eq.
  - intros tbl tbl' pk Hsteps. by apply (steps_lookup ttl tbl tbl' pk).
  - intros now attrs tbl pk r Hl He Ha Hc.
    rewrite (validate_found _ _ _ _ _ Hl). simpl. run_checks.
    by rewrite lookup_insert_eq.
Qed.

Lemma attempts_never_incremented_after_delete_witness :
  (validate Samples.ttl Samples.t4 Samples.wrong_code
     (Orm.delete (1%positive, Samples.verified) Samples.tbl_verified)).2
    !! 1%positive = None /\
  (validate Samples.ttl Samples.t4 Samples.wrong_code Samples.tbl_verified).2
    !! 1%positive
  = Some (mkEmailOTP "a@x.com" "123456" "tok-1" PURPOSE_REGISTRATION 0 1 true).
Proof.
  split.
  - apply (proj1 (proj2 (attempts_never_incremented_after_delete
                           Samples.ttl))
             (Orm.delete (1%positive, Samples.verified) Samples.tbl_verified)).
    + apply rtc_once. apply step_validate.
    + vm_compute. reflexivity.
  - apply (proj2 (proj2 (attempts_never_incremented_after_delete
                           Samples.ttl))
             Samples.t4 Samples.wrong_code Samples.tbl_verified 1%positive
             Samples.verified); vm_compute; congruence.
Defined.

End AttemptsInvariant.

(** ** FinalizeRegistration: the re-validation *)

Section Revalidation.

Import RegisterSerializer.
Implicit Types (attrs : Attrs) (tbl : Table).

Lemma keep_true token_ email_ r :
  keep token_ email_ r = true <->
  token r = token_ /\ purpose r = PURPOSE_REGISTRATION /\
  Orm.iexact (email r) email_ = true.
Proof.
  unfold keep. rewrite !andb_true_iff, String.eqb_eq.
  destruct (purpose r); simpl; intuition congruence.
Qed.




End Revalidation.

(** ** FinalizeRegistration: the deletion *)

Section Deletion.

Import RegisterSerializer.

Context {Accounts User Profile : Type}.
Variable create_user :
  string -> option string -> string -> Accounts -> option (User * Accounts).
Variable get_or_create : User -> Accounts -> option (Profile * Accounts).
Variable setattr : Profile -> string -> PyValue -> Profile.
Variable profile_save : Profile -> Accounts -> option Accounts.

Implicit Types (attrs vd : Attrs) (tbl : Table).
Implicit Types (st : Store (Accounts := Accounts)).

Local Abbreviation create_ :=
  (create create_user get_or_create setattr profile_save).





End Deletion.



(** ** UpcomingSessionSerializer: the start time *)

(** C10. [validate_start_time] accepts a start time exactly when it is no
    more than one minute before the current time: a start time up to 60
    seconds in the past is returned as it is, and only a start time more
    than one minute in the past is refused, with the message that the
    start time must be in the future. *)
Theorem start_time_one_minute_grace now value :
  (now - 60000000 <= value ->
   UpcomingSessionSerializer.validate_start_time now value = Ok value) /\
  (value < now - 60000000 ->
   UpcomingSessionSerializer.validate_start_time now value
   = Raise (DetailError "Start time must be in the future.")) /\
  UpcomingSessionSerializer.validate_start_time now (now - 60000000)
  = Ok (now - 60000000) /\
  UpcomingSessionSerializer.validate_start_time now (now - 60000001)
  = Raise (DetailError "Start time must be in the future.").
Proof.
  unfold UpcomingSessionSerializer.validate_start_time,
    UpcomingSessionSerializer.one_minute,
    UpcomingSessionSerializer.NotInFuture.
  change (1 * 60 * 1000000) with 60000000.
  repeat split.
  - intros H. apply Z.ltb_ge in H. by rewrite H.
  - intros H. apply Z.ltb_lt in H. by rewrite H.
  - by rewrite Z.ltb_irrefl.
  - assert ((now - 60000001 <? now - 60000000) = true) as ->; [|done].
    apply Z.ltb_lt. lia.
Qed.

Lemma start_time_one_minute_grace_witness :
  UpcomingSessionSerializer.validate_start_time 100000000 40000000
  = Ok 40000000 /\
  UpcomingSessionSerializer.validate_start_time 100000000 39999999
  = Raise (DetailError "Start time must be in the future.").
Proof.
  split.
  - apply (proj1 (start_time_one_minute_grace 100000000 40000000)). lia.
  - apply (proj1 (proj2 (start_time_one_minute_grace 100000000 39999999))).
    lia.
Defined.

(** * Further properties of the serializers *)

(** ** Normal forms of strings *)

Section NormalForms.

Import Py PyText.

Lemma lower_char_idem c : lower_char (lower_char c) = lower_char c.
Proof. by destruct c as [[] [] [] [] [] [] [] []]. Qed.

Lemma isalnum_lower_char c : isalnum_char (lower_char c) = isalnum_char c.
Proof. by destruct c as [[] [] [] [] [] [] [] []]. Qed.

Lemma alnum_not_space c : isalnum_char c = true -> isspace c = false.
Proof.
  destruct c as [[] [] [] [] [] [] [] []]; vm_compute; congruence.
Qed.

Lemma alnum_not_at c : isalnum_char c = true -> Ascii.eqb c "@" = false.
Proof.
  destruct c as [[] [] [] [] [] [] [] []]; vm_compute; congruence.
Qed.

Lemma lower_idem s : lower (lower s) = lower s.
Proof.
  induction s as [|c s IH]; [done|]. simpl. by rewrite lower_char_idem, IH.
Qed.

Lemma truthy_lower s : truthy (lower s) = truthy s.
Proof. by destruct s. Qed.

Lemma all_alnum_lower s : all_alnum (lower s) = all_alnum s.
Proof.
  induction s as [|c s IH]; [done|]. simpl.
  by rewrite isalnum_lower_char, IH.
Qed.



Lemma lstrip_starts_clean s : starts_clean (lstrip s).
Proof.
  induction s as [|c s IH]; [done|]. simpl.
  destruct (isspace c) eqn:E; [done|]. simpl. done.
Qed.

Lemma starts_clean_lstrip s : starts_clean s -> lstrip s = s.
Proof. destruct s as [|c s]; [done|]. simpl. by intros ->. Qed.

Lemma rstrip_starts_clean s : starts_clean s -> starts_clean (rstrip s).
Proof.
  destruct s as [|c s]; [done|]. simpl. intros Hc.
  destruct (rstrip s); simpl; [by rewrite Hc|done].
Qed.

Lemma rstrip_idem s : rstrip (rstrip s) = rstrip s.
Proof.
  induction s as [|c s IH]; [done|]. simpl.
  destruct (rstrip s) as [|a u] eqn:E.
  - destruct (isspace c) eqn:Hc; [done|]. simpl. by rewrite Hc.
  - change (rstrip (String c (String a u)))
      with (match rstrip (String a u) with
            | EmptyString =>
                if isspace c then EmptyString else String c EmptyString
            | t => String c t
            end).
    by rewrite IH.
Qed.

(** Stripping a stripped string changes nothing. *)
Lemma strip_idem s : strip (strip s) = strip s.
Proof.
  unfold strip.
  rewrite (starts_clean_lstrip (rstrip (lstrip s))).
  - apply rstrip_idem.
  - apply rstrip_starts_clean, lstrip_starts_clean.
Qed.

(** A string of alphanumeric characters has nothing to strip and holds
    no "@". *)
Lemma all_alnum_rstrip s : all_alnum s = true -> rstrip s = s.
Proof.
  induction s as [|c s IH]; [done|]. simpl.
  intros [Hc Hs]%andb_true_iff. rewrite (IH Hs).
  destruct s; [|done]. by rewrite (alnum_not_space c Hc).
Qed.

Lemma all_alnum_strip s : all_alnum s = true -> strip s = s.
Proof.
  intros Hs. unfold strip. rewrite starts_clean_lstrip.
  - by apply all_alnum_rstrip.
  - destruct s as [|c s]; [done|]. simpl in *.
    apply andb_true_iff in Hs as [Hc _]. by apply alnum_not_space.
Qed.

Lemma all_alnum_no_at s : all_alnum s = true -> contains "@" s = false.
Proof.
  induction s as [|c s IH]; [done|]. simpl.
  intros [Hc Hs]%andb_true_iff. by rewrite (alnum_not_at c Hc), (IH Hs).
Qed.

(** Strings of ASCII characters stay so when stripped and when put in
    lower case. *)
Lemma is_ascii_lower_char c :
  (N_of_ascii (lower_char c) <? 128)%N = (N_of_ascii c <? 128)%N.
Proof. by destruct c as [[] [] [] [] [] [] [] []]. Qed.

Lemma is_ascii_lower s : is_ascii s = true -> is_ascii (lower s) = true.
Proof.
  induction s as [|c s IH]; [done|]. simpl.
  intros [Hc Hs]%andb_true_iff. by rewrite is_ascii_lower_char, Hc, IH.
Qed.

Lemma is_ascii_lstrip s : is_ascii s = true -> is_ascii (lstrip s) = true.
Proof.
  induction s as [|c s IH]; [done|]. simpl.
  intros [Hc Hs]%andb_true_iff.
  destruct (isspace c); [by apply IH|]. simpl. by rewrite Hc, Hs.
Qed.

Lemma is_ascii_rstrip s : is_ascii s = true -> is_ascii (rstrip s) = true.
Proof.
  induction s as [|c s IH]; [done|]. simpl.
  intros [Hc Hs]%andb_true_iff. specialize (IH Hs).
  destruct (rstrip s) as [|a t].
  - destruct (isspace c); [done|]. simpl. by rewrite Hc.
  - change (is_ascii (String c (String a t)))
      with ((N_of_ascii c <? 128)%N && is_ascii (String a t)).
    by rewrite Hc, IH.
Qed.

Lemma is_ascii_strip s : is_ascii s = true -> is_ascii (strip s) = true.
Proof. intros Hs. by apply is_ascii_rstrip, is_ascii_lstrip. Qed.

(** On a value of ASCII characters, folding the letters as Python's
    [lower] does and folding the letters A..Z only match the same
    fields. *)
Lemma fold_ascii_char_lower c :
  (N_of_ascii c <? 128)%N = true -> Orm.fold_ascii_char c = lower_char c.
Proof. by destruct c as [[] [] [] [] [] [] [] []]. Qed.

Lemma is_ascii_fold_char c :
  (N_of_ascii (Orm.fold_ascii_char c) <? 128)%N = (N_of_ascii c <? 128)%N.
Proof. by destruct c as [[] [] [] [] [] [] [] []]. Qed.

Lemma iexact_char_on_ascii c1 c2 :
  (N_of_ascii c2 <? 128)%N = true ->
  Ascii.eqb (lower_char c1) (lower_char c2)
  = Ascii.eqb (Orm.fold_ascii_char c1) (Orm.fold_ascii_char c2).
Proof.
  intros Hc2. destruct (N_of_ascii c1 <? 128)%N eqn:Hc1.
  - by rewrite !fold_ascii_char_lower.
  - pose proof (is_ascii_lower_char c1) as Hl1.
    pose proof (is_ascii_lower_char c2) as Hl2.
    pose proof (is_ascii_fold_char c1) as Hf1.
    pose proof (is_ascii_fold_char c2) as Hf2.
    destruct (Ascii.eqb_spec (lower_char c1) (lower_char c2)) as [E|_];
      [congruence|].
    destruct (Ascii.eqb_spec (Orm.fold_ascii_char c1) (Orm.fold_ascii_char c2))
      as [E|_]; [congruence|done].
Qed.

Lemma iexact_on_ascii field value :
  is_ascii value = true ->
  Orm.iexact field value = Orm.iexact_ascii field value.
Proof.
  unfold Orm.iexact, Orm.iexact_ascii.
  revert value. induction field as [|c1 s1 IH]; intros [|c2 s2]; try done.
  simpl. intros [Hc Hs]%andb_true_iff.
  by rewrite (iexact_char_on_ascii c1 c2 Hc), (IH s2 Hs).
Qed.


End NormalForms.

(** ** RegisterSerializer and SendOTPSerializer: usernames and addresses *)

Section FieldValidators.

Import Py PyText.
Implicit Types (users : list UserRow).

(** [validate_username] tests the stripped value before it is put in
    lower case; the verdict is the same as if the tests were made on the
    normal form. *)
Lemma validate_username_alt value users :
  RegisterSerializer.validate_username value users =
    let n := lower (strip value) in
    if negb (truthy n) then Raise (DetailError "Username cannot be blank")
    else if negb (all_alnum n) then
      Raise (DetailError "Username must be letters and numbers only")
    else if UserObjects.username_exists n users then
      Raise (DetailError "Username already exists")
    else Ok n.
Proof.
  unfold RegisterSerializer.validate_username, isalnum. simpl.
  rewrite truthy_lower, all_alnum_lower.
  destruct (truthy (strip value)); simpl; [|done]. done.
Qed.

(** What an accepted username is. *)
Lemma validate_username_Ok value users n :
  RegisterSerializer.validate_username value users = Ok n ->
  n = lower (strip value) /\ truthy n = true /\ all_alnum n = true /\
  UserObjects.username_exists n users = false.
Proof.
  rewrite validate_username_alt. simpl.
  destruct (truthy (lower (strip value))) eqn:Ht; simpl; [|done].
  destruct (all_alnum (lower (strip value))) eqn:Ha; simpl; [|done].
  destruct (UserObjects.username_exists _ users) eqn:He; [done|].
  by intros [= <-].
Qed.

(** X1. For a submitted value of ASCII characters, the username
    [validate_username] accepts is the stripped value in lower case; it
    is of ASCII characters, is not empty, is made of letters and digits
    only (so it holds no whitespace and no "@"), is not in the directory,
    and is a fixed point: submitted again it is accepted unchanged.
    (Beyond ASCII Python's [lower] can give characters that are not
    alphanumeric; the statement is for ASCII values only.) *)
Theorem validate_username_normal_form value users n :
  is_ascii value = true ->
  RegisterSerializer.validate_username value users = Ok n ->
  n = lower (strip value) /\ is_ascii n = true /\
  truthy n = true /\ all_alnum n = true /\
  lower n = n /\ strip n = n /\ contains "@" n = false /\
  UserObjects.username_exists n users = false /\
  RegisterSerializer.validate_username n users = Ok n.
Proof.
  intros Hascii (-> & Ht & Ha & He)%validate_username_Ok.
  assert (lower (lower (strip value)) = lower (strip value)) as Hl
    by apply lower_idem.
  assert (strip (lower (strip value)) = lower (strip value)) as Hs
    by by apply all_alnum_strip.
  repeat split; try done.
  - by apply is_ascii_lower, is_ascii_strip.
  - by apply all_alnum_no_at.
  - rewrite validate_username_alt. simpl. by rewrite Hs, Hl, Ht, Ha, He.
Qed.

Lemma validate_username_normal_form_witness :
  RegisterSerializer.validate_username "carol7" Directory.users = Ok "carol7".
Proof.
  apply (validate_username_normal_form " Carol7 " Directory.users "carol7").
  - reflexivity.
  - vm_compute. reflexivity.
Defined.

(** X2. Two values of ASCII characters with the same normal form -- equal
    up to letter case and surrounding whitespace -- get the same verdict
    from [validate_username]: the same error or the same accepted name.
    (The statement is for ASCII values only: beyond ASCII two spellings
    can agree in lower case and differ in being alphanumeric.) *)
Theorem validate_username_spelling value1 value2 users :
  is_ascii value1 = true -> is_ascii value2 = true ->
  lower (strip value1) = lower (strip value2) ->
  RegisterSerializer.validate_username value1 users
  = RegisterSerializer.validate_username value2 users.
Proof.
  intros _ _ H. rewrite !validate_username_alt. simpl. by rewrite H.
Qed.

Lemma validate_username_spelling_witness :
  RegisterSerializer.validate_username " ALICE" Directory.users
  = RegisterSerializer.validate_username "alice  " Directory.users.
Proof.
  apply (validate_username_spelling " ALICE" "alice  " Directory.users).
  - reflexivity.
  - reflexivity.
  - vm_compute. reflexivity.
Defined.

(** X3. In a directory whose usernames are in lower case, a name
    [validate_username] accepts differs from every stored username even
    up to letter case, and the directory with the new name added still
    has all its usernames in lower case. *)
Theorem validate_username_keeps_directory value users n email_ :
  lowercase_names users ->
  RegisterSerializer.validate_username value users = Ok n ->
  (forall u, In u users -> lower (user_username u) <> lower n) /\
  lowercase_names (mkUserRow n email_ :: users).
Proof.
  intros Hlow (-> & _ & _ & Hex)%validate_username_Ok.
  pose proof (lower_idem (strip value)) as Hl.
  split.
  - intros u Hu Heq. unfold lowercase_names in Hlow.
    rewrite Forall_forall in Hlow. apply list_elem_of_In in Hu.
    rewrite (Hlow u Hu), Hl in Heq.
    assert (UserObjects.username_exists (lower (strip value)) users = true)
      as Hyes.
    { apply existsb_exists. exists u. split.
      - by apply list_elem_of_In.
      - by apply String.eqb_eq. }
    congruence.
  - by constructor.
Qed.

Lemma validate_username_keeps_directory_witness :
  lowercase_names (mkUserRow "carol7" "c@x.com" :: Directory.users).
Proof.
  apply (validate_username_keeps_directory " Carol7 " Directory.users
           "carol7" "c@x.com").
  - repeat constructor.
  - vm_compute. reflexivity.
Defined.







End FieldValidators.

(** ** From SendOTP to VerifyOTP and registration: one address, any spelling *)

Section AddressFlow.

Import Py.

(** X6. A record stored for the address [SendOTPSerializer.validate_email]
    returned, and created later than every other record of that address,
    is the record [VerifyOTPSerializer.validate] looks up for every
    spelling of the address with the same normal form, and its code is
    accepted there while the record is unexpired and below the limit; the
    filter of [RegisterSerializer.validate] keeps it too, for the record's
    token and the address [RegisterSerializer.validate_email] returns. *)
Theorem issued_record_found_under_any_spelling
    ttl now users value tbl pk row attrs :
  SendOTPSerializer.validate_email value users = Ok (email row) ->
  purpose row = PURPOSE_REGISTRATION ->
  tbl !! pk = None ->
  (forall pk' r', tbl !! pk' = Some r' ->
     VerifyOTPSerializer.keep (email row) r' = true ->
     created_at r' < created_at row) ->
  lower (strip (VerifyOTPSerializer.attrs_email attrs)) = lower (strip value) ->
  VerifyOTPSerializer.lookup (VerifyOTPSerializer.email_of attrs)
    (Orm.create pk row tbl) = Some (pk, row) /\
  (is_expired ttl now row = false -> attempts row < 5 ->
   code row = VerifyOTPSerializer.code_of attrs ->
   VerifyOTPSerializer.validate ttl now attrs (Orm.create pk row tbl)
   = (Ok (VerifyOTPSerializer.mkValidated attrs (pk, row)),
      Orm.create pk row tbl)) /\
  (forall value' users' e',
     RegisterSerializer.validate_email value' users' = Ok e' ->
     lower (strip value') = lower (strip value) ->
     RegisterSerializer.keep (token row) e' row = true).
Proof.
  intros Hsend Hp Hfree Hnew Hspell.
  assert (email row = lower (strip value)) as Hrow.
  { unfold SendOTPSerializer.validate_email in Hsend.
    destruct (UserObjects.email_exists _ users); [done|]. congruence. }
  assert (VerifyOTPSerializer.email_of attrs = email row) as He
    by (unfold VerifyOTPSerializer.email_of; congruence).
  assert (VerifyOTPSerializer.lookup (VerifyOTPSerializer.email_of attrs)
            (Orm.create pk row tbl) = Some (pk, row)) as Hl.
  { rewrite He. unfold VerifyOTPSerializer.lookup, Orm.create.
    apply filter_latest_newest.
    - by rewrite lookup_insert_eq.
    - apply verify_keep_true. split; [|done].
      unfold Orm.iexact. by apply String.eqb_eq.
    - intros pk' r' Hpk' Hk' Hne. rewrite lookup_insert_ne in Hpk' by done.
      eauto. }
  split; [done|]. split.
  - intros Hx Ha Hc. rewrite (validate_found _ _ _ _ _ Hl). simpl.
    by run_checks.
  - intros value' users' e' Hreg Hspell'.
    unfold RegisterSerializer.validate_email in Hreg.
    destruct (UserObjects.email_exists _ users'); [done|].
    injection Hreg as <-. apply keep_true. repeat split; [done|].
    unfold Orm.iexact. apply String.eqb_eq. congruence.
Qed.

Lemma issued_record_found_under_any_spelling_witness :
  VerifyOTPSerializer.lookup
    (VerifyOTPSerializer.email_of
       (VerifyOTPSerializer.mkAttrs " A@X.Com" "123456"))
    (Orm.create 1%positive Samples.fresh ∅)
  = Some (1%positive, Samples.fresh).
Proof.
  refine (proj1 (issued_record_found_under_any_spelling Samples.ttl Samples.t4
                   Directory.users "a@x.COM " ∅ 1%positive Samples.fresh
                   (VerifyOTPSerializer.mkAttrs " A@X.Com" "123456")
                   _ _ _ _ _)).
  - vm_compute. reflexivity.
  - reflexivity.
  - apply lookup_empty.
  - intros pk' r' H. by rewrite lookup_empty in H.
  - vm_compute. reflexivity.
Defined.

End AddressFlow.

(** ** VerifyOTP: sequences of calls *)

Section VerifySequences.

Import VerifyOTPSerializer.
Implicit Types (attrs : Attrs) (tbl : Table) (calls : list (Z * Attrs)).

Lemma validate_all_cons ttl c calls tbl :
  (validate_all ttl (c :: calls) tbl).1
  = (validate ttl c.1 c.2 tbl).1
    :: (validate_all ttl calls (validate ttl c.1 c.2 tbl).2).1 /\
  (validate_all ttl (c :: calls) tbl).2
  = (validate_all ttl calls (validate ttl c.1 c.2 tbl).2).2.
Proof.
  cbn [validate_all]. destruct (validate ttl c.1 c.2 tbl) as [res tbl'].
  cbn [fst snd]. by destruct (validate_all ttl calls tbl') as [ress tbl''].
Qed.

(** One call either leaves the table as it was and is no CodeMismatch, or
    is a CodeMismatch that adds one to the counter of a record that passes
    the filter of the call and was below the limit. *)
Lemma validate_cases ttl now attrs tbl :
  ((validate ttl now attrs tbl).2 = tbl /\
   is_mismatch (validate ttl now attrs tbl).1 = false) \/
  exists pk r, tbl !! pk = Some r /\
    keep (email_of attrs) r = true /\ attempts r < 5 /\
    is_mismatch (validate ttl now attrs tbl).1 = true /\
    (validate ttl now attrs tbl).2
      = <[pk := set_attempts (attempts r + 1) r]> tbl.
Proof.
  destruct (lookup (email_of attrs) tbl) as [[pk r]|] eqn:Hl.
  - rewrite (validate_found _ _ _ _ _ Hl). simpl.
    apply filter_latest_Some in Hl as (Hpk & Hk & _).
    destruct (is_expired ttl now r); [by left|].
    destruct (5 <=? attempts r) eqn:Ha; [by left|].
    destruct (negb (String.eqb (code r) (code_of attrs))); [|by left].
    right. exists pk, r. apply Z.leb_gt in Ha. done.
  - unfold validate. rewrite Hl. by left.
Qed.

(** The rows after one call, key by key. *)
Lemma validate_row ttl now attrs tbl pk :
  match tbl !! pk with
  | None => (validate ttl now attrs tbl).2 !! pk = None
  | Some r =>
      (validate ttl now attrs tbl).2 !! pk = Some r \/
      (keep (email_of attrs) r = true /\ attempts r < 5 /\
       (validate ttl now attrs tbl).2 !! pk
       = Some (set_attempts (attempts r + 1) r))
  end.
Proof.
  destruct (validate_cases ttl now attrs tbl)
    as [[-> _]|(pk0 & r0 & Hpk0 & Hk & Ha & _ & ->)].
  - destruct (tbl !! pk); [by left|done].
  - rewrite lookup_insert. case_decide as Heq.
    + subst pk0. rewrite Hpk0. by right.
    + destruct (tbl !! pk); [by left|done].
Qed.

Lemma keep_set_attempts e n r : keep e (set_attempts n r) = keep e r.
Proof. done. Qed.

(** X7. Over any sequence of calls, no key is added to the table or
    removed from it, and a stored record keeps its address, code, token,
    purpose, creation time and verification flag; its attempts counter
    never goes down, and never goes past 5 unless it was already there. *)
Theorem attempts_counter_bounded ttl calls tbl pk :
  (tbl !! pk = None -> (validate_all ttl calls tbl).2 !! pk = None) /\
  (forall r, tbl !! pk = Some r ->
     exists r', (validate_all ttl calls tbl).2 !! pk = Some r' /\
       email r' = email r /\ code r' = code r /\ token r' = token r /\
       purpose r' = purpose r /\ created_at r' = created_at r /\
       is_verified r' = is_verified r /\
       attempts r <= attempts r' <= Z.max (attempts r) 5).
Proof.
  revert tbl. induction calls as [|c calls IH]; intros tbl.
  - simpl. split; [done|]. intros r Hr. exists r. repeat split; try done; lia.
  - rewrite (proj2 (validate_all_cons ttl c calls tbl)).
    destruct (IH (validate ttl c.1 c.2 tbl).2) as [IHn IHs].
    pose proof (validate_row ttl c.1 c.2 tbl pk) as Hrow.
    destruct (tbl !! pk) as [r|] eqn:Hpk.
    + split; [done|]. intros ? [= <-].
      destruct Hrow as [Hsame|(_ & Ha & Hup)].
      * by apply IHs.
      * destruct (IHs _ Hup) as (r' & Hr' & ? & ? & ? & ? & ? & ? & Hb).
        exists r'. simpl in *. repeat split; try done; lia.
    + split; [auto|done].
Qed.

Lemma attempts_counter_bounded_witness :
  exists r',
    (validate_all Samples.ttl
       [(Samples.t4, Samples.wrong_code); (Samples.t4, Samples.wrong_code)]
       Samples.tbl_fresh).2 !! 1%positive = Some r' /\
    email r' = "a@x.com" /\ code r' = "123456" /\ token r' = "tok-1" /\
    purpose r' = PURPOSE_REGISTRATION /\ created_at r' = 0 /\
    is_verified r' = false /\ 0 <= attempts r' <= 5.
Proof.
  apply (proj2 (attempts_counter_bounded Samples.ttl
                  [(Samples.t4, Samples.wrong_code);
                   (Samples.t4, Samples.wrong_code)]
                  Samples.tbl_fresh 1%positive) Samples.fresh).
  vm_compute. reflexivity.
Defined.

(** X8. Calls never change a record of another address or of another
    purpose: a stored record that the filter of none of the calls keeps
    is the same after the whole sequence. *)
Theorem other_records_untouched ttl calls tbl pk r :
  tbl !! pk = Some r ->
  Forall (fun c => Orm.iexact (email r) (email_of c.2) = false \/
                   purpose r <> PURPOSE_REGISTRATION) calls ->
  (validate_all ttl calls tbl).2 !! pk = Some r.
Proof.
  intros Hpk Hcalls. revert tbl Hpk.
  induction Hcalls as [|c calls Hc _ IH]; intros tbl Hpk; [done|].
  rewrite (proj2 (validate_all_cons ttl c calls tbl)). apply IH.
  pose proof (validate_row ttl c.1 c.2 tbl pk) as Hrow. rewrite Hpk in Hrow.
  destruct Hrow as [Hsame|([He Hp]%verify_keep_true & _)]; [done|].
  destruct Hc as [Hc|Hc]; congruence.
Qed.

Lemma other_records_untouched_witness :
  (validate_all Samples.ttl
     [(Samples.t4, Samples.wrong_code); (Samples.t4, Samples.wrong_code)]
     Directory.tbl_other).2 !! 3%positive = Some Directory.other.
Proof.
  apply (other_records_untouched Samples.ttl
           [(Samples.t4, Samples.wrong_code);
            (Samples.t4, Samples.wrong_code)]
           Directory.tbl_other 3%positive Directory.other).
  - vm_compute. reflexivity.
  - repeat constructor.
Defined.

(** X9. A record superseded by a later record of the same address and
    purpose is never written again: over any sequence of calls, for
    whatever addresses, it stays exactly as it was. *)
Theorem superseded_record_frozen ttl calls tbl pk r pk' r' :
  tbl !! pk = Some r -> tbl !! pk' = Some r' ->
  Py.lower (email r') = Py.lower (email r) ->
  purpose r' = PURPOSE_REGISTRATION ->
  created_at r < created_at r' ->
  (validate_all ttl calls tbl).2 !! pk = Some r.
Proof.
  intros Hpk Hpk' He Hp Hlt. revert tbl r' Hpk Hpk' He Hp Hlt.
  induction calls as [|c calls IH]; intros tbl r' Hpk Hpk' He Hp Hlt;
    [done|].
  rewrite (proj2 (validate_all_cons ttl c calls tbl)).
  assert ((validate ttl c.1 c.2 tbl).2 !! pk = Some r) as Hkept.
  { destruct (lookup (email_of c.2) tbl) as [[pk0 r0]|] eqn:Hl.
    - rewrite (validate_found _ _ _ _ _ Hl). simpl.
      apply filter_latest_Some in Hl as (Hpk0 & Hk0 & Hmax).
      repeat case_match; simpl; try done.
      rewrite lookup_insert_ne; [done|]. intros ->.
      assert (r0 = r) as -> by congruence.
      apply verify_keep_true in Hk0 as [Hi _].
      assert (keep (email_of c.2) r' = true) as Hk'.
      { apply verify_keep_true. split; [|done].
        unfold Orm.iexact in *. apply String.eqb_eq in Hi.
        apply String.eqb_eq. congruence. }
      specialize (Hmax pk' r' Hpk' Hk'). lia.
    - unfold validate. by rewrite Hl. }
  pose proof (validate_row ttl c.1 c.2 tbl pk') as Hrow.
  rewrite Hpk' in Hrow.
  destruct Hrow as [Hsame|(_ & _ & Hup)].
  - by apply (IH _ r').
  - by apply (IH _ (set_attempts (attempts r' + 1) r')).
Qed.

Lemma superseded_record_frozen_witness :
  (validate_all Samples.ttl
     [(Samples.t4, Samples.submit "111111"); (Samples.t4, Samples.wrong_code)]
     Directory.tbl_two).2 !! 2%positive = Some Directory.older.
Proof.
  apply (superseded_record_frozen Samples.ttl
           [(Samples.t4, Samples.submit "111111");
            (Samples.t4, Samples.wrong_code)]
           Directory.tbl_two 2%positive Directory.older
           1%positive Samples.fresh);
    vm_compute; congruence.
Defined.

End VerifySequences.

(** ** VerifyOTP: the number of wrong codes *)

Section GuessBudget.

Import VerifyOTPSerializer.
Implicit Types (tbl : Table) (calls : list (Z * Attrs)).
Implicit Types (P : EmailOTP -> bool).

Lemma budget_nonneg P tbl : 0 <= budget P tbl.
Proof.
  unfold budget.
  apply (map_fold_weak_ind (fun b _ => 0 <= b)); [done|].
  intros i x m r _ Hr. unfold remaining. destruct (P x); lia.
Qed.

(** Replacing a stored record moves the budget by the difference of the
    two records' shares. *)
Lemma budget_replace P tbl pk r r' :
  tbl !! pk = Some r ->
  budget P (<[pk := r']> tbl)
  = budget P tbl - (if P r then remaining r else 0)
    + (if P r' then remaining r' else 0).
Proof.
  intros Hpk. unfold budget.
  rewrite <- (insert_delete_eq tbl pk r').
  rewrite map_fold_insert_L; [|intros; lia|apply lookup_delete_eq].
  rewrite (map_fold_delete_L _ 0 pk r tbl); [lia|intros; lia|done].
Qed.

(** One call: a CodeMismatch takes one from the budget of every filter
    that keeps the records the call can find; any other outcome leaves
    the budget as it is. *)
Lemma validate_budget P ttl now attrs tbl :
  (forall r n, P (set_attempts n r) = P r) ->
  (forall r, keep (email_of attrs) r = true -> P r = true) ->
  budget P (validate ttl now attrs tbl).2
  = budget P tbl
    - (if is_mismatch (validate ttl now attrs tbl).1 then 1 else 0).
Proof.
  intros Hstable Hcovers.
  destruct (validate_cases ttl now attrs tbl)
    as [[-> ->]|(pk & r & Hpk & Hk & Ha & -> & ->)]; [lia|].
  rewrite (budget_replace P tbl pk r _ Hpk), Hstable, (Hcovers r Hk).
  unfold remaining. simpl. lia.
Qed.

Lemma mismatches_cons {A} (res : result A) ress :
  mismatches (res :: ress)
  = (if is_mismatch res then 1 else 0) + mismatches ress.
Proof.
  unfold mismatches. simpl. destruct (is_mismatch res); simpl; lia.
Qed.

Lemma validate_all_budget P ttl calls tbl :
  (forall r n, P (set_attempts n r) = P r) ->
  Forall (fun c => forall r, keep (email_of c.2) r = true -> P r = true)
    calls ->
  mismatches (validate_all ttl calls tbl).1
  + budget P (validate_all ttl calls tbl).2 = budget P tbl.
Proof.
  intros Hstable Hcalls. revert tbl.
  induction Hcalls as [|c calls Hc _ IH]; intros tbl.
  - simpl. unfold mismatches. simpl. lia.
  - destruct (validate_all_cons ttl c calls tbl) as [-> ->].
    rewrite mismatches_cons.
    specialize (IH (validate ttl c.1 c.2 tbl).2).
    pose proof (validate_budget P ttl c.1 c.2 tbl Hstable Hc). lia.
Qed.

(** X10. Wrong codes are counted against a budget that only shrinks.
    Over any sequence of calls, the number of CodeMismatch results plus
    the attempts still open afterwards -- 5 less the counter, summed over
    the stored records -- is the number of attempts open before; so the
    calls get at most that many CodeMismatch results. The same holds for
    the calls for one address and the records of that address alone. *)
Theorem wrong_codes_within_budget ttl calls tbl :
  (mismatches (validate_all ttl calls tbl).1
   + budget (fun _ => true) (validate_all ttl calls tbl).2
   = budget (fun _ => true) tbl /\
   mismatches (validate_all ttl calls tbl).1 <= budget (fun _ => true) tbl) /\
  (forall email_,
     Forall (fun c => email_of c.2 = email_) calls ->
     mismatches (validate_all ttl calls tbl).1
     + budget (keep email_) (validate_all ttl calls tbl).2
     = budget (keep email_) tbl /\
     mismatches (validate_all ttl calls tbl).1 <= budget (keep email_) tbl).
Proof.
  split.
  - assert (mismatches (validate_all ttl calls tbl).1
            + budget (fun _ => true) (validate_all ttl calls tbl).2
            = budget (fun _ => true) tbl) as H.
    { apply validate_all_budget; [done|]. by apply Forall_forall. }
    split; [done|].
    pose proof (budget_nonneg (fun _ => true) (validate_all ttl calls tbl).2).
    lia.
  - intros email_ Hcalls.
    assert (mismatches (validate_all ttl calls tbl).1
            + budget (keep email_) (validate_all ttl calls tbl).2
            = budget (keep email_) tbl) as H.
    { apply validate_all_budget; [done|].
      eapply Forall_impl; [exact Hcalls|]. simpl. by intros c ->. }
    split; [done|].
    pose proof (budget_nonneg (keep email_) (validate_all ttl calls tbl).2).
    lia.
Qed.

Lemma wrong_codes_within_budget_witness :
  mismatches
    (validate_all Samples.ttl
       [(Samples.t4, Samples.wrong_code); (Samples.t4, Samples.wrong_code);
        (Samples.t4, Samples.wrong_code); (Samples.t4, Samples.wrong_code);
        (Samples.t4, Samples.wrong_code); (Samples.t4, Samples.wrong_code);
        (Samples.t4, Samples.wrong_code)]
       Directory.tbl_other).1
  <= budget (keep "a@x.com") Directory.tbl_other.
Proof.
  apply (proj2 (wrong_codes_within_budget Samples.ttl
                  [(Samples.t4, Samples.wrong_code);
                   (Samples.t4, Samples.wrong_code);
                   (Samples.t4, Samples.wrong_code);
                   (Samples.t4, Samples.wrong_code);
                   (Samples.t4, Samples.wrong_code);
                   (Samples.t4, Samples.wrong_code);
                   (Samples.t4, Samples.wrong_code)]
                  Directory.tbl_other) "a@x.com").
  repeat constructor.
Defined.

(** On the sample table the budget of the address is 5, and seven wrong
    codes give five CodeMismatch results. *)
Example budget_of_fresh_record :
  budget (keep "a@x.com") Directory.tbl_other = 5 /\
  mismatches
    (validate_all Samples.ttl
       [(Samples.t4, Samples.wrong_code); (Samples.t4, Samples.wrong_code);
        (Samples.t4, Samples.wrong_code); (Samples.t4, Samples.wrong_code);
        (Samples.t4, Samples.wrong_code); (Samples.t4, Samples.wrong_code);
        (Samples.t4, Samples.wrong_code)]
       Directory.tbl_other).1 = 5.
Proof. split; vm_compute; reflexivity. Qed.

End GuessBudget.

(** ** EmailOrUsernameTokenObtainPairSerializer: logging in by address *)

Section EmailLogin.

Import Py PyText EmailOrUsernameTokenObtainPairSerializer.
Implicit Types (users : list UserRow).





(** X11. A username [RegisterSerializer.validate_username] accepted is
    never taken for an address at login: [validate] hands the attributes
    to the inherited [validate] as they are, whatever users with whatever
    addresses are stored. *)
Theorem registered_username_not_rerouted
    {R : Type} (super_validate : Attrs -> R) value users0 n users pw :
  RegisterSerializer.validate_username value users0 = Ok n ->
  validate super_validate users (mkAttrs (Some n) pw)
  = Returned (super_validate (mkAttrs (Some n) pw)).
Proof.
  intros (-> & Ht & Ha & _)%validate_username_Ok.
  unfold validate. simpl. rewrite Ht.
  rewrite (all_alnum_strip _ Ha), (all_alnum_no_at _ Ha). done.
Qed.

Lemma registered_username_not_rerouted_witness :
  validate (fun a => a) [mkUserRow "dave" "carol7"] (mkAttrs (Some "carol7") "pw")
  = Returned (mkAttrs (Some "carol7") "pw").
Proof.
  apply (registered_username_not_rerouted (fun a => a) " Carol7 "
           Directory.users "carol7").
  vm_compute. reflexivity.
Defined.





(** Two stored users with one address: logging in with it raises. *)
Example login_with_shared_address :
  validate (fun a => a)
    [mkUserRow "alice" "a@x.com"; mkUserRow "alicia" "A@X.com"]
    (mkAttrs (Some "a@x.com") "pw")
  = Uncaught_MultipleObjectsReturned.
Proof. reflexivity. Qed.

End EmailLogin.

(** ** RegisterSerializer.create: what is written to the profile *)

Section CreateProfile.

Import RegisterSerializer.

Context {Accounts User Profile : Type}.
Variable create_user :
  string -> option string -> string -> Accounts -> option (User * Accounts).
Variable get_or_create : User -> Accounts -> option (Profile * Accounts).
Variable setattr : Profile -> string -> PyValue -> Profile.
Variable profile_save : Profile -> Accounts -> option Accounts.

Implicit Types (vd : Attrs) (st : Store (Accounts := Accounts)).

Lemma guarded_fold (l : list (string * PyValue)) (p : Profile) :
  fold_left (fun p av => if is_set av.2 then setattr p av.1 av.2 else p) l p
  = fold_left (fun p av => setattr p av.1 av.2)
      (List.filter (fun av => is_set av.2) l) p.
Proof.
  revert p. induction l as [|av l IH]; intros p; [done|]. simpl.
  destruct (is_set av.2); simpl; apply IH.
Qed.

Lemma filter_written_str attr v rest :
  List.filter (fun av : string * PyValue => is_set av.2)
    ((attr, pop_str v) :: rest)
  = (written_str attr v
     ++ List.filter (fun av : string * PyValue => is_set av.2) rest)%list.
Proof. destruct v as [[|c s]|]; done. Qed.

Lemma filter_profile_fields vd :
  List.filter (fun av => is_set av.2) (profile_fields vd) = written_fields vd.
Proof.
  unfold profile_fields, written_fields.
  rewrite !filter_written_str. do 3 f_equal.
  by destruct (age vd), (gender vd) as [[|c s]|].
Qed.

Lemma is_set_true v : is_set v = true <-> v <> PyNone /\ v <> PyStr "".
Proof. destruct v as [|[|c s]|n]; simpl; split; intuition congruence. Qed.

(** X14. When no call raises, [create] saves the profile after assigning
    to it exactly the submitted profile fields that are present and not
    empty, in the order of the source, and then deletes the OTP instance;
    a field left out or blank is never assigned, and an age is assigned
    whenever one was given, 0 included. When [create_user],
    [get_or_create] or the saving of the profile raises, [create] returns
    no user and the OTP table is as it was: the record is not deleted. *)
Theorem create_assigns_present_fields vd o st :
  (forall user acc1 profile acc2 acc3,
     create_user (username vd) (normalized_email vd) (password vd)
       (accounts st) = Some (user, acc1) ->
     get_or_create user acc1 = Some (profile, acc2) ->
     profile_save
       (fold_left (fun p av => setattr p av.1 av.2) (written_fields vd)
          profile) acc2 = Some acc3 ->
     create create_user get_or_create setattr profile_save vd o st
     = (Some user, mkStore (Orm.delete o (otps st)) acc3)) /\
  ((create create_user get_or_create setattr profile_save vd o st).1 = None ->
   otps (create create_user get_or_create setattr profile_save vd o st).2
   = otps st) /\
  (forall u st',
     create create_user get_or_create setattr profile_save vd o st
     = (Some u, st') ->
     otps st' = Orm.delete o (otps st) /\
     exists acc1 profile acc2,
       create_user (username vd) (normalized_email vd) (password vd)
         (accounts st) = Some (u, acc1) /\
       get_or_create u acc1 = Some (profile, acc2) /\
       profile_save
         (fold_left (fun p av => setattr p av.1 av.2) (written_fields vd)
            profile) acc2 = Some (accounts st')) /\
  (forall attr v, In (attr, v) (written_fields vd) <->
     In (attr, v) (profile_fields vd) /\ v <> PyNone /\ v <> PyStr "") /\
  (forall n, age vd = Some n -> In ("age", PyInt n) (written_fields vd)) /\
  (forall attr, In (attr, PyStr "") (written_fields vd) -> False).
Proof.
  split; [|split; [|split; [|split; [|split]]]].
  - intros user acc1 profile acc2 acc3 Hu Hg Hs. unfold create.
    rewrite Hu, Hg, guarded_fold, filter_profile_fields.
    by rewrite Hs.
  - unfold create.
    destruct (create_user (username vd) (normalized_email vd) (password vd)
                (accounts st)) as [[user acc1]|]; [|done].
    destruct (get_or_create user acc1) as [[profile acc2]|]; [|done].
    destruct (profile_save _ acc2); [|done]. simpl. discriminate.
  - intros u st'. unfold create.
    destruct (create_user _ _ _ _) as [[user acc1]|] eqn:Hu; [|done].
    destruct (get_or_create _ _) as [[profile acc2]|] eqn:Hg; [|done].
    rewrite guarded_fold, filter_profile_fields.
    destruct (profile_save _ _) as [acc3|] eqn:Hs; [|done].
    intros [= <- <-]. simpl. split; [done|].
    exists acc1, profile, acc2. done.
  - intros attr v. rewrite <- filter_profile_fields, filter_In.
    simpl. by rewrite is_set_true.
  - intros n Hn. rewrite <- filter_profile_fields. apply filter_In.
    split; [|done]. unfold profile_fields. rewrite Hn. simpl. tauto.
  - intros attr. rewrite <- filter_profile_fields, filter_In. simpl.
    by intros [_ ?].
Qed.

End CreateProfile.

Lemma create_assigns_present_fields_witness :
  In ("age", PyInt 0)
    (RegisterSerializer.written_fields
       (RegisterSerializer.mkAttrs "alice" (Some "a@x.com") "secret1"
          (Some "Alice A") (Some "") None (Some 0) None "tok-1")) /\
  RegisterSerializer.otps
    (Samples.create_raising (Samples.registration (Some "a@x.com"))
       (1%positive, Samples.verified)
       (RegisterSerializer.mkStore Samples.tbl_verified tt)).2
  = Samples.tbl_verified /\
  Samples.create_on_unit (Samples.registration (Some "a@x.com"))
    (1%positive, Samples.verified)
    (RegisterSerializer.mkStore Samples.tbl_verified tt)
  = (Some tt,
     RegisterSerializer.mkStore
       (Orm.delete (1%positive, Samples.verified) Samples.tbl_verified) tt).
Proof.
  split; [|split].
  - apply (proj1 (proj2 (proj2 (proj2 (proj2
      (create_assigns_present_fields (Accounts := unit) (User := unit)
         (Profile := unit)
         (fun _ _ _ acc => Some (tt, acc)) (fun _ acc => Some (tt, acc))
         (fun p _ _ => p) (fun _ acc => Some acc)
         (RegisterSerializer.mkAttrs "alice" (Some "a@x.com") "secret1"
            (Some "Alice A") (Some "") None (Some 0) None "tok-1")
         (1%positive, Samples.verified)
         (RegisterSerializer.mkStore Samples.tbl_verified tt)))))) 0).
    reflexivity.
  - apply (proj1 (proj2
      (create_assigns_present_fields (Accounts := unit) (User := unit)
         (Profile := unit)
         (fun _ _ _ _ => None) (fun _ acc => Some (tt, acc))
         (fun p _ _ => p) (fun _ acc => Some acc)
         (Samples.registration (Some "a@x.com"))
         (1%positive, Samples.verified)
         (RegisterSerializer.mkStore Samples.tbl_verified tt)))).
    reflexivity.
  - apply (proj1
      (create_assigns_present_fields (Accounts := unit) (User := unit)
         (Profile := unit)
         (fun _ _ _ acc => Some (tt, acc)) (fun _ acc => Some (tt, acc))
         (fun p _ _ => p) (fun _ acc => Some acc)
         (Samples.registration (Some "a@x.com"))
         (1%positive, Samples.verified)
         (RegisterSerializer.mkStore Samples.tbl_verified tt))
      tt tt tt tt tt); reflexivity.
Defined.

(** The assignments for a request with a name, a blank nickname and
    age 0. *)
Example written_fields_sample :
  RegisterSerializer.written_fields
    (RegisterSerializer.mkAttrs "alice" (Some "a@x.com") "secret1"
       (Some "Alice A") (Some "") None (Some 0) None "tok-1")
  = [("full_name", PyStr "Alice A"); ("age", PyInt 0)].
Proof. reflexivity. Qed.

(** ** MusicTrackSerializer: the displayed duration *)

Section Durations.

Import PyText MusicTrackSerializer.

Lemma append_length (a b : string) :
  String.length (a +:+ b) = (String.length a + String.length b)%nat.
Proof. induction a as [|c a IH]; simpl; [done|]. by rewrite IH. Qed.

Lemma append_inj_length (a b x y : string) :
  String.length a = String.length b -> a +:+ x = b +:+ y -> a = b /\ x = y.
Proof.
  revert b. induction a as [|c a IH]; intros [|d b]; simpl; try done.
  intros [= Hlen] [= -> Hrest]. destruct (IH b Hlen Hrest) as [-> ->]. done.
Qed.

(** The digits of a number are put in front of what is there already. *)
Lemma pretty_N_go_length x s :
  (String.length s <= String.length (pretty_N_go x s))%nat.
Proof.
  revert s. induction (N.lt_wf_0 x) as [x _ IH]; intros s.
  assert (x = 0 \/ 0 < x)%N as [->|Hx] by lia; [by rewrite pretty_N_go_0|].
  rewrite pretty_N_go_step by done.
  etrans; [|apply IH; by apply N.div_lt]. simpl. lia.
Qed.

Lemma pretty_N_go_pos_length x s :
  (0 < x)%N -> (String.length s < String.length (pretty_N_go x s))%nat.
Proof.
  intros Hx. rewrite pretty_N_go_step by done.
  pose proof (pretty_N_go_length (x `div` 10)%N
                (String (pretty_N_char (x `mod` 10)) s)) as H.
  simpl in H. lia.
Qed.

(** The numeral of a positive number does not start with a zero. *)
Lemma pretty_N_go_head x s :
  (0 < x)%N ->
  exists c t, pretty_N_go x s = String c t /\ c <> "0"%char.
Proof.
  revert s. induction (N.lt_wf_0 x) as [x _ IH]; intros s Hx.
  rewrite pretty_N_go_step by done.
  destruct (N.eq_0_gt_0_cases (x `div` 10)) as [H0|Hpos].
  - rewrite H0, pretty_N_go_0. eexists _, _. split; [done|].
    assert (x < 10)%N as Hlt by (apply N.div_small_iff in H0; lia).
    rewrite N.mod_small by done.
    assert (x = 1 \/ x = 2 \/ x = 3 \/ x = 4 \/ x = 5 \/ x = 6
            \/ x = 7 \/ x = 8 \/ x = 9)%N as Hc by lia.
    destruct Hc as [->|[->|[->|[->|[->|[->|[->|[->| ->]]]]]]]]; done.
  - apply IH; [|done]. by apply N.div_lt.
Qed.

Lemma pretty_Z_leading_zero (n : Z) t : pretty n = String "0" t -> t = "".
Proof.
  destruct n as [|p|p]; unfold pretty, pretty_Z.
  - by intros [= <-].
  - unfold pretty, pretty_positive, pretty, pretty_N.
    rewrite decide_False by done.
    destruct (pretty_N_go_head (N.pos p) "") as (c & t' & -> & Hc); [lia|].
    intros [= -> _]. done.
  - done.
Qed.

Lemma pretty_Z_nonempty (n : Z) : (1 <= String.length (pretty n))%nat.
Proof.
  destruct n as [|p|p]; unfold pretty, pretty_Z; simpl; [lia| |lia].
  unfold pretty, pretty_positive, pretty, pretty_N.
  rewrite decide_False by done.
  pose proof (pretty_N_go_pos_length (N.pos p) ""). simpl in *. lia.
Qed.

(** Padding keeps numerals apart. *)
Lemma format_02d_inj a b : format_02d a = format_02d b -> a = b.
Proof.
  unfold format_02d.
  pose proof (pretty_Z_nonempty a) as Ha.
  pose proof (pretty_Z_nonempty b) as Hb.
  destruct (String.length (pretty a) <? 2)%nat eqn:Ea,
    (String.length (pretty b) <? 2)%nat eqn:Eb.
  - intros [= H]. by apply (inj pretty).
  - apply Nat.ltb_lt in Ea. apply Nat.ltb_ge in Eb. simpl. intros H.
    symmetry in H. apply pretty_Z_leading_zero in H.
    rewrite H in Ha. simpl in Ha. lia.
  - apply Nat.ltb_ge in Ea. apply Nat.ltb_lt in Eb. simpl. intros H.
    apply pretty_Z_leading_zero in H.
    rewrite H in Hb. simpl in Hb. lia.
  - by apply (inj pretty).
Qed.

(** Numbers below 100 take two characters. *)
Lemma format_02d_small n :
  0 <= n < 100 -> String.length (format_02d n) = 2%nat.
Proof.
  intros Hn.
  assert (forallb (fun k => Nat.eqb
                     (String.length (format_02d (Z.of_nat k))) 2)
            (seq 0 100) = true) as Hall by (vm_compute; reflexivity).
  rewrite forallb_forall in Hall.
  specialize (Hall (Z.to_nat n)). rewrite Z2Nat.id in Hall by lia.
  apply Nat.eqb_eq, Hall, in_seq. lia.
Qed.

(** Numbers from 100 on take more. *)
Lemma format_02d_large n :
  100 <= n -> (3 <= String.length (format_02d n))%nat.
Proof.
  intros Hn. destruct n as [|p|p]; [lia| |lia].
  assert (3 <= String.length (pretty (Z.pos p)))%nat as Hlen.
  { unfold pretty, pretty_Z, pretty, pretty_positive, pretty, pretty_N.
    rewrite decide_False by done.
    rewrite 2!pretty_N_go_step by (try apply N.div_str_pos_iff; lia).
    set (s := String _ (String _ "")).
    pose proof (pretty_N_go_pos_length ((N.pos p `div` 10) `div` 10)%N s) as H.
    assert (0 < (N.pos p `div` 10) `div` 10)%N as Hpos.
    { rewrite N.Div0.div_div. apply N.div_str_pos_iff; lia. }
    specialize (H Hpos). subst s. simpl in H. lia. }
  unfold format_02d.
  destruct (String.length (pretty (Z.pos p)) <? 2)%nat eqn:E; [|done].
  apply Nat.ltb_lt in E. lia.
Qed.

(** X15. Two tracks with different durations are never displayed alike:
    [get_duration] gives different strings for different numbers of
    seconds, whatever their size and sign. *)
Theorem get_duration_inj d1 d2 :
  get_duration d1 = get_duration d2 -> d1 = d2.
Proof.
  unfold get_duration. intros H.
  assert (forall d, String.length (format_02d (d mod 60)) = 2%nat) as Hsec.
  { intros d. apply format_02d_small.
    pose proof (Z.mod_pos_bound d 60). lia. }
  assert (String.length (format_02d (d1 / 60))
          = String.length (format_02d (d2 / 60))) as Hlen.
  { apply (f_equal String.length) in H.
    rewrite !append_length, !Hsec in H. simpl in H. lia. }
  apply append_inj_length in H as [Hm Hs]; [|done].
  apply format_02d_inj in Hm. injection Hs as Hs. apply format_02d_inj in Hs.
  rewrite (Z.div_mod d1 60), (Z.div_mod d2 60) by lia. congruence.
Qed.

Lemma get_duration_inj_witness : 3599 = 3599.
Proof. apply (get_duration_inj 3599 3599). reflexivity. Defined.

(** X16. A duration of 0 to 5999 seconds is displayed in exactly five
    characters, two for the minutes, a colon and two for the seconds;
    from 6000 seconds on the display is longer, as the minutes are never
    carried into hours. The seconds always take the last two characters,
    the remainder of the duration by 60. *)
Theorem get_duration_width d :
  0 <= d ->
  (d < 6000 ->
   String.length (get_duration d) = 5%nat /\
   String.get 2 (get_duration d) = Some ":"%char) /\
  (6000 <= d -> (5 < String.length (get_duration d))%nat) /\
  exists mm ss,
    get_duration d = mm +:+ ":" +:+ ss /\
    mm = format_02d (d / 60) /\ ss = format_02d (d mod 60) /\
    String.length ss = 2%nat /\ (2 <= String.length mm)%nat.
Proof.
  intros Hd.
  assert (String.length (format_02d (d mod 60)) = 2%nat) as Hsec.
  { apply format_02d_small. pose proof (Z.mod_pos_bound d 60). lia. }
  assert (2 <= String.length (format_02d (d / 60)%Z))%nat as Hmin.
  { unfold format_02d.
    destruct (String.length (pretty (d / 60)%Z) <? 2)%nat eqn:E.
    - pose proof (pretty_Z_nonempty (d / 60)). rewrite append_length.
      simpl. lia.
    - by apply Nat.ltb_ge in E. }
  unfold get_duration. split; [|split].
  - intros Hlt.
    assert (String.length (format_02d (d / 60)) = 2%nat) as Hmm.
    { apply format_02d_small. split; [by apply Z.div_pos|].
      apply Z.div_lt_upper_bound; lia. }
    rewrite !append_length, Hsec, Hmm. split; [done|].
    destruct (format_02d (d / 60)) as [|a [|b [|c t]]]; try done.
  - intros Hge. rewrite !append_length, Hsec.
    pose proof (format_02d_large (d / 60)) as H.
    assert (100 <= d / 60) by (apply Z.div_le_lower_bound; lia).
    simpl. lia.
  - by exists (format_02d (d / 60)), (format_02d (d mod 60)).
Qed.

Lemma get_duration_width_witness :
  String.length (get_duration 3599) = 5%nat /\
  (5 < String.length (get_duration 6000))%nat.
Proof.
  split.
  - apply (proj1 (get_duration_width 3599 ltac:(lia))). lia.
  - apply (proj1 (proj2 (get_duration_width 6000 ltac:(lia)))). lia.
Defined.

(** Displayed durations, the edges among them. *)
Example get_duration_samples :
  get_duration 0 = "00:00" /\ get_duration 59 = "00:59" /\
  get_duration 60 = "01:00" /\ get_duration 3600 = "60:00" /\
  get_duration 5999 = "99:59" /\ get_duration 6000 = "100:00" /\
  get_duration (-1) = "-1:59".
Proof. repeat split; vm_compute; reflexivity. Qed.

End Durations.

(** ** VerifyOTP: the declared code field in front of [validate] *)

Section CodeField.

Import VerifyOTPSerializer.

Lemma code_field_Ok data value :
  code_field data = Ok value <->
  value = Py.strip data /\ String.length (Py.strip data) = 6%nat /\
  PyText.contains "000"%char (Py.strip data) = false.
Proof.
  unfold code_field.
  destruct (Py.truthy (Py.strip data)) eqn:Ht; simpl.
  - destruct (String.length (Py.strip data) <? 6)%nat eqn:E1.
    { apply Nat.ltb_lt in E1. split; [done|]. intros (_ & ? & _). lia. }
    destruct (6 <? String.length (Py.strip data))%nat eqn:E2.
    { apply Nat.ltb_lt in E2. split; [done|]. intros (_ & ? & _). lia. }
    apply Nat.ltb_ge in E1. apply Nat.ltb_ge in E2.
    destruct (PyText.contains "000"%char (Py.strip data)) eqn:E3.
    { split; [done|]. by intros (_ & _ & ?). }
    split; [intros [= <-]; split; [done|split; [lia|done]] | by intros (-> & _)].
  - split; [done|]. intros (_ & Hlen & _).
    destruct (Py.strip data); [done|]. done.
Qed.

(** X17. A submitted code that is not six characters long once its
    surrounding whitespace is trimmed, or that holds a null character, is
    refused by the declared field: [validate] is not run, nothing is
    written and no attempt is counted. A code the field lets through is
    the trimmed submission, six characters long and free of surrounding
    whitespace, so that the stripping in [validate] leaves it as it is
    and it is compared verbatim. *)
Theorem malformed_code_counts_no_attempt ttl now data tbl :
  (String.length (Py.strip (attrs_code data)) <> 6%nat \/
   PyText.contains "000"%char (Py.strip (attrs_code data)) = true ->
   (run_validation ttl now data tbl).2 = tbl /\
   is_ok (run_validation ttl now data tbl).1 = false /\
   is_mismatch (run_validation ttl now data tbl).1 = false) /\
  (forall value,
     code_field (attrs_code data) = Ok value ->
     value = Py.strip (attrs_code data) /\
     String.length value = 6%nat /\
     Py.strip value = value /\
     code_of (mkAttrs (attrs_email data) value) = value).
Proof.
  split.
  - intros Hbad. unfold run_validation.
    destruct (code_field (attrs_code data)) as [v|e] eqn:Hf.
    + apply code_field_Ok in Hf as (_ & Hlen & Hnul).
      destruct Hbad; [done|congruence].
    + simpl. split; [done|]. split; [done|].
      unfold code_field in Hf. repeat case_match; by simplify_eq.
  - intros value (-> & Hlen & _)%code_field_Ok.
    repeat split; [done|apply strip_idem|apply strip_idem].
Qed.

Lemma malformed_code_counts_no_attempt_witness :
  (run_validation Samples.ttl Samples.t4 (Samples.submit "12345")
     Samples.tbl_fresh).2 = Samples.tbl_fresh /\
  Py.strip "123456" = "123456".
Proof.
  split.
  - apply (proj1 (malformed_code_counts_no_attempt Samples.ttl Samples.t4
                    (Samples.submit "12345") Samples.tbl_fresh)).
    left. vm_compute. lia.
  - apply (proj2 (malformed_code_counts_no_attempt Samples.ttl Samples.t4
                    Samples.padded_code Samples.tbl_fresh) "123456").
    vm_compute. reflexivity.
Defined.

End CodeField.

(** ** Wrong codes and registration *)

Section RegistrationAfterGuesses.

Implicit Types (tbl : Table).

(** Two tables with the same keys whose records differ in the attempts
    counter at most. *)
Lemma validate_all_same_records ttl calls tbl pk :
  match tbl !! pk, (VerifyOTPSerializer.validate_all ttl calls tbl).2 !! pk with
  | Some r, Some r' => r' = set_attempts (attempts r') r
  | None, None => True
  | _, _ => False
  end.
Proof.
  revert tbl. induction calls as [|c calls IH]; intros tbl.
  - simpl. destruct (tbl !! pk) as [[]|]; done.
  - rewrite (proj2 (validate_all_cons ttl c calls tbl)).
    specialize (IH (VerifyOTPSerializer.validate ttl c.1 c.2 tbl).2).
    pose proof (validate_row ttl c.1 c.2 tbl pk) as Hrow.
    destruct (tbl !! pk) as [r|].
    + destruct Hrow as [Hsame|(_ & _ & Hup)].
      * by rewrite Hsame in IH.
      * rewrite Hup in IH.
        destruct (_ !! pk) as [r'|]; [|done]. rewrite IH. done.
    + by rewrite Hrow in IH.
Qed.

(** X18. Wrong codes do not stand in the way of a registration:
    [RegisterSerializer.validate] does not read the attempts counter.
    With tokens that identify their record, its verdict after any
    sequence of [VerifyOTPSerializer.validate] calls is its verdict
    before them -- the same error, or the same record accepted with at
    most its counter changed -- even when the calls have brought the
    record to the attempts limit. *)
Theorem wrong_codes_do_not_block_registration
    ttl now attrs ttl' calls tbl :
  unique_tokens tbl ->
  match RegisterSerializer.validate ttl now attrs tbl with
  | Raise e =>
      RegisterSerializer.validate ttl now attrs
        (VerifyOTPSerializer.validate_all ttl' calls tbl).2 = Raise e
  | Ok (vd, (pk, r)) =>
      exists r',
        RegisterSerializer.validate ttl now attrs
          (VerifyOTPSerializer.validate_all ttl' calls tbl).2
        = Ok (vd, (pk, r')) /\
        r' = set_attempts (attempts r') r
  end.
Proof.
  intros Huniq.
  set (tbl' := (VerifyOTPSerializer.validate_all ttl' calls tbl).2).
  pose proof (fun pk => validate_all_same_records ttl' calls tbl pk) as Hsame.
  fold tbl' in Hsame.
  unfold RegisterSerializer.validate.
  destruct (RegisterSerializer.attrs_email attrs) as [e|]; [|done].
  destruct (negb (Py.truthy e)); [done|].
  destruct (RegisterSerializer.lookup (RegisterSerializer.otp_token attrs)
              e tbl) as [[pk r]|] eqn:Hl.
  - apply filter_latest_Some in Hl as (Hpk & Hk & _).
    pose proof (Hsame pk) as Hrow. rewrite Hpk in Hrow.
    destruct (tbl' !! pk) as [r'|] eqn:Hpk'; [|done].
    assert (RegisterSerializer.lookup (RegisterSerializer.otp_token attrs)
              e tbl' = Some (pk, r')) as ->.
    { apply filter_latest_newest; [done|by rewrite Hrow|].
      intros pk2 r2' Hpk2' Hk2' Hne. exfalso. apply Hne.
      pose proof (Hsame pk2) as Hrow2. rewrite Hpk2' in Hrow2.
      destruct (tbl !! pk2) as [r2|] eqn:Hpk2; [|done].
      apply (Huniq pk2 r2 pk r Hpk2 Hpk).
      apply keep_true in Hk as (-> & _).
      rewrite Hrow2 in Hk2'. by apply keep_true in Hk2' as (? & _). }
    simpl. rewrite Hrow. simpl.
    change (is_expired ttl now (set_attempts (attempts r') r))
      with (is_expired ttl now r).
    destruct (negb (is_verified r) || is_expired ttl now r); [done|].
    exists (set_attempts (attempts r') r). by rewrite <- Hrow.
  - assert (RegisterSerializer.lookup (RegisterSerializer.otp_token attrs)
              e tbl' = None) as ->; [|done].
    apply filter_latest_None. intros pk r' Hpk'.
    pose proof (Hsame pk) as Hrow. rewrite Hpk' in Hrow.
    destruct (tbl !! pk) as [r|] eqn:Hpk; [|done].
    unfold RegisterSerializer.lookup in Hl.
    rewrite filter_latest_None in Hl. rewrite Hrow. exact (Hl pk r Hpk).
Qed.

Lemma wrong_codes_do_not_block_registration_witness :
  exists r',
    RegisterSerializer.validate Samples.ttl Samples.t4
      (Samples.registration (Some "a@x.com"))
      (VerifyOTPSerializer.validate_all Samples.ttl
         [(Samples.t4, Samples.wrong_code); (Samples.t4, Samples.wrong_code);
          (Samples.t4, Samples.wrong_code); (Samples.t4, Samples.wrong_code);
          (Samples.t4, Samples.wrong_code)]
         Samples.tbl_verified).2
    = Ok (Samples.registration (Some "a@x.com"), (1%positive, r')) /\
    r' = set_attempts (attempts r') Samples.verified.
Proof.
  assert (unique_tokens Samples.tbl_verified) as Huniq.
  { intros pk1 r1 pk2 r2 H1 H2 _. unfold Samples.tbl_verified in H1, H2.
    apply lookup_singleton_Some in H1 as [<- _].
    apply lookup_singleton_Some in H2 as [<- _]. reflexivity. }
  exact (wrong_codes_do_not_block_registration Samples.ttl Samples.t4
           (Samples.registration (Some "a@x.com")) Samples.ttl
           [(Samples.t4, Samples.wrong_code);
            (Samples.t4, Samples.wrong_code);
            (Samples.t4, Samples.wrong_code);
            (Samples.t4, Samples.wrong_code);
            (Samples.t4, Samples.wrong_code)]
           Samples.tbl_verified Huniq).
Defined.

(** A verified record brought to the limit is still accepted for
    registration. *)
Example locked_verified_record_registers :
  is_ok (RegisterSerializer.validate Samples.ttl Samples.t4
           (Samples.registration (Some "a@x.com"))
           {[ 1%positive := set_attempts 5 Samples.verified ]}) = true.
Proof. reflexivity. Qed.

End RegistrationAfterGuesses.
